(** * SemiconductorCointegration: the backtesting core of [helper.py]

    A shallow embedding of the three public functions of [helper.py]
    ([generate_positions], [calculate_returns], [fit_rolling_params]) and the
    properties of them that the specification states.

    - Floating-point values are IEEE 754 binary64 numbers, modelled by the
      standard library's [spec_float] (zeros, infinities, NaN, finite numbers)
      with its correctly rounded operations at precision 53, [emax] 1024.
    - A pandas Series is a list of (label, value) pairs in index order.
    - A Python call either returns a value or raises: [outcome].
    - The statsmodels and pandas routines the code calls as black boxes
      (OLS fit, cointegration test, [Series.mean], [Series.std]) are Section
      variables. *)

From Stdlib Require Import String ZArith List Bool Lia SpecFloat.
Import ListNotations.

Set Implicit Arguments.

(** ** binary64 arithmetic *)

Module F64.

Definition prec : Z := 53.
Definition emax : Z := 1024.

Abbreviation float := spec_float.

Definition nan : float := S754_nan.
Definition zero : float := S754_zero false.
Definition pinf : float := S754_infinity false.
Definition ninf : float := S754_infinity true.

Definition add : float -> float -> float := SFadd prec emax.
Definition sub : float -> float -> float := SFsub prec emax.
Definition mul : float -> float -> float := SFmul prec emax.
Definition div : float -> float -> float := SFdiv prec emax.
Definition sqrt : float -> float := SFsqrt prec emax.
Definition opp : float -> float := SFopp.
Definition abs : float -> float := SFabs.

(** [ltb x y] is Python's [x < y]; [gtb x y] is [x > y].  Every comparison
    with NaN is false. *)
Definition ltb : float -> float -> bool := SFltb.
Definition gtb (x y : float) : bool := SFltb y x.
Definition leb : float -> float -> bool := SFleb.

(** Conversion of an integer, rounding to nearest even (exact below 2^53). *)
Definition of_Z (n : Z) : float := binary_normalize prec emax n 0 false.

Definition one : float := Eval vm_compute in of_Z 1.
Definition two : float := Eval vm_compute in of_Z 2.

(** The float written [n / d] in decimal source text, e.g. [2.5 = 25/10]:
    the division is correctly rounded, as is the reading of a literal. *)
Definition ratio (n d : Z) : float := div (of_Z n) (of_Z d).

Definition is_nan (x : float) : bool :=
  match x with S754_nan => true | _ => false end.
Definition is_inf (x : float) : bool :=
  match x with S754_infinity _ => true | _ => false end.
Definition is_zero (x : float) : bool :=
  match x with S754_zero _ => true | _ => false end.
(** [numpy.isfinite]. *)
Definition is_finite (x : float) : bool :=
  match x with S754_zero _ | S754_finite _ _ _ => true | _ => false end.

Definition valid (x : float) : bool := valid_binary prec emax x.

End F64.

Abbreviation float := spec_float.

(** ** Outcomes of Python calls *)

Inductive exn : Type :=
| ValueError (msg : string)
| Exception (msg : string).

Inductive outcome (A : Type) : Type :=
| Returned (a : A)
| Raised (e : exn).

Arguments Returned {A} a.
Arguments Raised {A} e.

Definition bind {A B : Type} (c : outcome A) (k : A -> outcome B) : outcome B :=
  match c with
  | Returned a => k a
  | Raised e => Raised e
  end.

Notation "x <- c ;; k" := (bind c (fun x => k))
  (at level 61, c at next level, right associativity).
Notation "' p <- c ;; k" := (bind c (fun p => k))
  (at level 61, p pattern, c at next level, right associativity).

(** A call fails when it raises instead of returning. *)
Definition fails {A : Type} (c : outcome A) : Prop := exists e, c = Raised e.

(** ** Series *)

Section Series.

Variable label : Type.

(** A Series: its index labels with their values, in index order. *)
Definition Series (A : Type) : Type := list (label * A).

Definition index {A : Type} (s : Series A) : list label := map fst s.
Definition values {A : Type} (s : Series A) : list A := map snd s.

(** [pd.Series(data, index)] for a list [data]: the lengths must agree. *)
Definition pd_Series {A : Type} (data : list A) (idx : list label)
  : outcome (Series A) :=
  if Nat.eqb (length data) (length idx)
  then Returned (combine idx data)
  else Raised (ValueError "Length of values does not match length of index").

(** [s.iloc[a:b]] for [0 <= a <= b]; the stop is clipped to the length. *)
Definition iloc_slice {A : Type} (s : list A) (a b : nat) : list A :=
  firstn (b - a) (skipn a s).

End Series.

Arguments pd_Series {label A} data idx.
Arguments index {label A} s.
Arguments values {label A} s.

(** ** [generate_positions] *)

(** The loop variables [positions], [in_trade], [entry_side]. *)
Record loop_state : Type := mkLoop {
  positions : list Z;
  in_trade : Z;
  entry_side : Z
}.

Section GeneratePositions.

Variables entry_threshold exit_threshold stop_z : float.

(** One iteration of the [for] loop, with [z = zscore.iloc[i]]. *)
Definition loop_body (st : loop_state) (z : float) : loop_state :=
  if Z.eqb (in_trade st) 0 then
    if F64.gtb z entry_threshold then
      mkLoop (positions st ++ [(-1)%Z]) (-1) (-1)
    else if F64.ltb z (F64.opp entry_threshold) then
      mkLoop (positions st ++ [1%Z]) 1 1
    else
      mkLoop (positions st ++ [0%Z]) (in_trade st) (entry_side st)
  else if Z.eqb (in_trade st) 1 then
    if F64.ltb (F64.abs z) exit_threshold then
      mkLoop (positions st ++ [0%Z]) 0 0
    else if F64.ltb z (F64.opp stop_z) then
      mkLoop (positions st ++ [0%Z]) 0 0
    else
      mkLoop (positions st ++ [1%Z]) (in_trade st) (entry_side st)
  else if Z.eqb (in_trade st) (-1) then
    if F64.ltb (F64.abs z) exit_threshold then
      mkLoop (positions st ++ [0%Z]) 0 0
    else if F64.gtb z stop_z then
      mkLoop (positions st ++ [0%Z]) 0 0
    else
      mkLoop (positions st ++ [(-1)%Z]) (in_trade st) (entry_side st)
  else st.

Definition loop_init : loop_state := mkLoop [] 0 0.

(** The whole loop: [i] runs over [range(len(zscore))] in order. *)
Definition run_loop (zs : list float) (st : loop_state) : loop_state :=
  fold_left loop_body zs st.

End GeneratePositions.

Section GeneratePositionsSeries.

Variable label : Type.

Definition generate_positions (zscore : Series label float)
    (entry_threshold exit_threshold stop_z : float)
  : outcome (Series label Z) :=
  let st := run_loop entry_threshold exit_threshold stop_z
              (values zscore) loop_init in
  pd_Series (positions st) (index zscore).

End GeneratePositionsSeries.

(** The default of the [stop_z] argument, [3.0]. *)
Definition stop_z_default : float := Eval vm_compute in F64.of_Z 3.

(** ** The position state machine as the specification words it *)

Inductive State : Type := Flat | Long | Short.

Definition position_value (s : State) : Z :=
  match s with
  | Flat => 0
  | Long => 1
  | Short => -1
  end.

Section StateMachine.

Variables entryThreshold exitThreshold stopZ : float.

(** The transition table, conditions checked in the order of its rows. *)
Definition next_state (s : State) (z : float) : State :=
  match s with
  | Flat =>
      if F64.gtb z entryThreshold then Short
      else if F64.ltb z (F64.opp entryThreshold) then Long
      else Flat
  | Long =>
      if F64.ltb (F64.abs z) exitThreshold then Flat
      else if F64.ltb z (F64.opp stopZ) then Flat
      else Long
  | Short =>
      if F64.ltb (F64.abs z) exitThreshold then Flat
      else if F64.gtb z stopZ then Flat
      else Short
  end.

(** The states visited from [s]: the state after each step. *)
Fixpoint machine_trace (s : State) (zs : list float) : list State :=
  match zs with
  | [] => []
  | z :: zs' => let s' := next_state s z in s' :: machine_trace s' zs'
  end.

(** The state reached from [s] after all of [zs]. *)
Definition machine_final (s : State) (zs : list float) : State :=
  fold_left next_state zs s.

(** The emitted position at each step is the new state. *)
Definition machine_positions (zs : list float) : list Z :=
  map position_value (machine_trace Flat zs).

End StateMachine.

(** The loop state that stands for machine state [s] after emitting [ps]:
    [in_trade] and [entry_side] both hold the state's position value. *)
Definition loop_at (ps : list Z) (s : State) : loop_state :=
  mkLoop ps (position_value s) (position_value s).

(** The z-scores that pass no comparison of the row of the current
    position: NaN whatever the position, plus infinity while Long (+1),
    minus infinity while Short (-1). *)
Definition held_through (position : Z) (z : float) : Prop :=
  F64.is_nan z = true
  \/ (z = F64.pinf /\ position = 1%Z)
  \/ (z = F64.ninf /\ position = (-1)%Z).

(** ** Column arithmetic of pandas

    [calculate_returns] and the window arithmetic of [fit_rolling_params]
    combine Series that carry the same labels (the alignment the callers
    owe); they are modelled by their value columns, in index order.  Where
    one operand is shorter, the labels it lacks give NaN, as label alignment
    does for an operand whose index is a prefix of the other's. *)

(** [s1 op s2], element by element. *)
Fixpoint series_op (f : float -> float -> float) (xs ys : list float)
  : list float :=
  match xs, ys with
  | [], _ => map (f F64.nan) ys
  | _, [] => map (fun x => f x F64.nan) xs
  | x :: xs', y :: ys' => f x y :: series_op f xs' ys'
  end.

(** [s.shift(1)]: every value moves one place down, NaN enters at the top. *)
Definition shift1 (xs : list float) : list float :=
  match xs with
  | [] => []
  | _ :: _ => F64.nan :: removelast xs
  end.

(** [s.diff()]: [s - s.shift(1)]. *)
Definition diff (xs : list float) : list float :=
  series_op F64.sub xs (shift1 xs).

(** Subtraction of two int64 values: the result wraps around modulo 2^64. *)
Definition wrap_int64 (n : Z) : Z :=
  ((n + 2 ^ 63) mod 2 ^ 64 - 2 ^ 63)%Z.

(** [s.diff()] on an int64 column: each entry is subtracted from the next as
    an integer, the differences are then stored as float64; NaN enters at
    the top. *)
Definition diff_int64 (ps : list Z) : list float :=
  match ps with
  | [] => []
  | _ :: rest =>
      F64.nan
      :: map (fun pc => F64.of_Z (wrap_int64 (snd pc - fst pc)))
             (combine ps rest)
  end.

(** [s.fillna(0)]. *)
Definition fill0 (x : float) : float :=
  if F64.is_nan x then F64.zero else x.
Definition fillna0 (xs : list float) : list float := map fill0 xs.

(** [s.replace([np.inf, -np.inf], 0)]. *)
Definition noinf0 (x : float) : float :=
  if F64.is_inf x then F64.zero else x.
Definition replace_inf0 (xs : list float) : list float := map noinf0 xs.

(** [pd.Series(s, index=px.index)] for a Series [s], given by its column
    over the leading labels of [px]: [s] re-indexed on the [n] labels of
    [px]; the labels [s] lacks give NaN, and a column of length [n] is left
    as it is. *)
Definition reindex (xs : list float) (n : nat) : list float :=
  firstn n xs ++ repeat F64.nan (n - length xs).

(** ** [calculate_returns] *)

Section CalculateReturns.

(** [Series.mean] and [Series.std] of pandas. *)
Variables series_mean series_std : list float -> float.

Variables px py : list float.
(** The position Series holds int64 values, as [generate_positions] builds
    it; [shift] converts them to float64, [diff] subtracts them as integers
    and converts the differences. *)
Variable positions_in : list Z.
Variable betas_in : list float.
Variable tc : float.
Variable alphas_in : option (list float).

(** Lines 54 and 55 for Series arguments, which pandas re-indexes without a
    length check; [calculate_returns_call] below adds array arguments, whose
    length is checked. *)
Definition betas : list float := reindex betas_in (length px).

Definition alphas : list float :=
  match alphas_in with
  | None => repeat F64.zero (length px)
  | Some a => reindex a (length px)
  end.

Definition spread : list float :=
  series_op F64.sub px (series_op F64.add alphas (series_op F64.mul betas py)).

Definition spread_change : list float := fillna0 (diff spread).

Definition positions_f : list float := map F64.of_Z positions_in.

Definition pos_lag : list float := fillna0 (shift1 positions_f).

Definition strategy_pnl : list float :=
  series_op F64.mul pos_lag spread_change.

Definition gross_notional : list float :=
  series_op F64.add (map F64.abs px)
    (series_op F64.mul (map F64.abs betas) (map F64.abs py)).

Definition units_traded : list float :=
  fillna0 (map F64.abs (diff_int64 positions_in)).

Definition daily_costs : list float :=
  series_op F64.mul (map (F64.mul tc) gross_notional) units_traded.

Definition strategy_pnl_net : list float :=
  series_op F64.sub strategy_pnl daily_costs.

Definition capital_shift : list float := shift1 gross_notional.

Definition daily_return : list float :=
  fillna0 (replace_inf0 (series_op F64.div strategy_pnl capital_shift)).

Definition daily_return_net : list float :=
  fillna0 (replace_inf0 (series_op F64.div strategy_pnl_net capital_shift)).

(** [np.sqrt(252)]. *)
Definition sqrt_252 : float := F64.sqrt (F64.of_Z 252).

(** The annualised Sharpe ratio of a return column: [0.0] unless its
    standard deviation compares greater than zero. *)
Definition sharpe_of (r : list float) : float :=
  if F64.gtb (series_std r) F64.zero
  then F64.mul (F64.div (series_mean r) (series_std r)) sqrt_252
  else F64.zero.

Definition sharpe : float := sharpe_of daily_return.
Definition sharpe_net : float := sharpe_of daily_return_net.

(** The returned dict, by its per-period columns and scalars.  Its four
    cumulative columns are running sums and products of these columns. *)
Record ReturnsResult : Type := mkReturns {
  r_strategy_pnl : list float;
  r_strategy_pnl_net : list float;
  r_daily_return : list float;
  r_daily_return_net : list float;
  r_sharpe : float;
  r_sharpe_net : float;
  r_positions : list Z
}.

Definition calculate_returns : ReturnsResult :=
  mkReturns strategy_pnl strategy_pnl_net daily_return daily_return_net
    sharpe sharpe_net positions_in.

End CalculateReturns.

(** What [pd.Series(arg, index=px.index)] is given in lines 54 and 55: a
    Series, which is re-indexed on the labels of [px] ([reindex], no length
    check), or an array (a list or an ndarray), whose length must be that of
    the index. *)
Inductive series_arg : Type :=
| AsSeries (column : list float)
| AsArray (data : list float).

Definition construct_on_index (arg : series_arg) (n : nat)
  : outcome (list float) :=
  match arg with
  | AsSeries s => Returned (reindex s n)
  | AsArray a =>
      if Nat.eqb (length a) n
      then Returned a
      else Raised (ValueError "Length of values does not match length of index")
  end.

(** Whether the constructor accepts [arg] on an index of [n] labels. *)
Definition fits_index (arg : series_arg) (n : nat) : bool :=
  match arg with
  | AsSeries _ => true
  | AsArray a => Nat.eqb (length a) n
  end.

Section CalculateReturnsCall.

Variables series_mean series_std : list float -> float.

(** The call of [calculate_returns] with either kind of [betas] and
    [alphas]: the two constructors of lines 54 and 55 run first and may
    raise; the columns are those of [calculate_returns] on what they
    built. *)
Definition calculate_returns_call (px py : list float) (positions : list Z)
    (betas : series_arg) (tc : float) (alphas : option series_arg)
  : outcome ReturnsResult :=
  betas_s <- construct_on_index betas (length px) ;;
  match alphas with
  | None =>
      Returned (calculate_returns series_mean series_std px py positions
                  betas_s tc None)
  | Some arg =>
      alphas_s <- construct_on_index arg (length px) ;;
      Returned (calculate_returns series_mean series_std px py positions
                  betas_s tc (Some alphas_s))
  end.

End CalculateReturnsCall.

(** ** [fit_rolling_params] *)

(** The five lists the loop appends to. *)
Record fit_lists : Type := mkFit {
  f_alphas : list float;
  f_betas : list float;
  f_means : list float;
  f_stds : list float;
  f_pvals : list float
}.

Definition fit_empty : fit_lists := mkFit [] [] [] [] [].

(** The estimate of one timestamp. *)
Record RollingEstimate : Type := mkEstimate {
  e_alpha : float;
  e_beta : float;
  e_spreadMean : float;
  e_spreadStd : float;
  e_cointPValue : float
}.

(** The five lists after one more estimate. *)
Definition fit_append (acc : fit_lists) (r : RollingEstimate) : fit_lists :=
  mkFit (f_alphas acc ++ [e_alpha r])
        (f_betas acc ++ [e_beta r])
        (f_means acc ++ [e_spreadMean r])
        (f_stds acc ++ [e_spreadStd r])
        (f_pvals acc ++ [e_cointPValue r]).

(** [X - (alpha + beta * Y)] on a window. *)
Definition window_spread (alpha beta : float) (X Y : list float) : list float :=
  series_op F64.sub X (map (fun y => F64.add alpha (F64.mul beta y)) Y).

Section FitRollingParams.

Variable label : Type.

(** [sm.OLS(X, sm.add_constant(Y)).fit()] followed by the unpacking
    [alpha, beta = reg.params]: a pair of floats, or an error. *)
Variable OLS_params :
  Series label float -> Series label float -> outcome (float * float).

(** [coint(X, Y)]: the p-value of its result, or an error. *)
Variable coint : Series label float -> Series label float -> outcome float.

Variables series_mean series_std : list float -> float.

Variables px py : Series label float.
Variable window : nat.

Definition window_X (i : nat) : Series label float :=
  iloc_slice px (i - window) i.
Definition window_Y (i : nat) : Series label float :=
  iloc_slice py (i - window) i.

(** [try: _, pval, _ = coint(X, Y) except Exception: pval = 1]; in the
    float column of p-values the integer 1 is 1.0. *)
Definition pval_of (X Y : Series label float) : float :=
  match coint X Y with
  | Returned pval => pval
  | Raised _ => F64.one
  end.

(** What one iteration appends, as a function of the two slices alone. *)
Definition window_estimate (X Y : Series label float)
  : outcome RollingEstimate :=
  ' (alpha, beta) <- OLS_params X Y ;;
  let spread := window_spread alpha beta (values X) (values Y) in
  Returned (mkEstimate alpha beta (series_mean spread) (series_std spread)
              (pval_of X Y)).

(** The estimate of the window ending before [i], all NaN should the
    regression raise there. *)
Definition estimate_at (i : nat) : RollingEstimate :=
  match window_estimate (window_X i) (window_Y i) with
  | Returned r => r
  | Raised _ => mkEstimate F64.nan F64.nan F64.nan F64.nan F64.nan
  end.

(** The body of the loop at [i]. *)
Definition fit_body (acc : fit_lists) (i : nat) : outcome fit_lists :=
  let X := window_X i in
  let Y := window_Y i in
  ' (alpha, beta) <- OLS_params X Y ;;
  let spread := window_spread alpha beta (values X) (values Y) in
  Returned (mkFit (f_alphas acc ++ [alpha])
                  (f_betas acc ++ [beta])
                  (f_means acc ++ [series_mean spread])
                  (f_stds acc ++ [series_std spread])
                  (f_pvals acc ++ [pval_of X Y])).

Fixpoint fit_loop (range : list nat) (acc : fit_lists) : outcome fit_lists :=
  match range with
  | [] => Returned acc
  | i :: rest => acc' <- fit_body acc i ;; fit_loop rest acc'
  end.

Definition fit_rolling_params
  : outcome (Series label float * Series label float * Series label float
             * Series label float * Series label float) :=
  let idx := index px in
  acc <- fit_loop (seq window (length px - window)) fit_empty ;;
  let idx := skipn window idx in
  s_alphas <- pd_Series (f_alphas acc) idx ;;
  s_betas <- pd_Series (f_betas acc) idx ;;
  s_means <- pd_Series (f_means acc) idx ;;
  s_stds <- pd_Series (f_stds acc) idx ;;
  s_pvals <- pd_Series (f_pvals acc) idx ;;
  Returned (s_alphas, s_betas, s_means, s_stds, s_pvals).

(** The five Series built from a list of estimates, one per timestamp
    from [window] on. *)
Definition fit_result (rows : list RollingEstimate)
  : Series label float * Series label float * Series label float
    * Series label float * Series label float :=
  let idx := skipn window (index px) in
  (combine idx (map e_alpha rows), combine idx (map e_beta rows),
   combine idx (map e_spreadMean rows), combine idx (map e_spreadStd rows),
   combine idx (map e_cointPValue rows)).

End FitRollingParams.

(** ** Stub capabilities and sample inputs

    Closed-form stand-ins for the statistical black boxes, and the concrete
    inputs the examples below are evaluated at. *)

Module Sample.

(** A regressor that always answers intercept 0 and slope 1. *)
Definition ols_unit (X Y : Series nat float) : outcome (float * float) :=
  Returned (F64.zero, F64.one).

(** A regressor and a cointegration test that always fail. *)
Definition ols_failing (X Y : Series nat float) : outcome (float * float) :=
  Raised (Exception "singular matrix").
Definition coint_failing (X Y : Series nat float) : outcome float :=
  Raised (Exception "degenerate input").

(** Left-to-right sum over the count; a constant deviation. *)
Definition mean_seq (xs : list float) : float :=
  F64.div (fold_left F64.add xs F64.zero) (F64.of_Z (Z.of_nat (length xs))).
Definition std_one (xs : list float) : float := F64.one.
Definition std_zero (xs : list float) : float := F64.zero.

(** [2.0], [0.5], [2.5], [-2.5], [0.001]. *)
Definition f2_0 : float := Eval vm_compute in F64.of_Z 2.
Definition f0_5 : float := Eval vm_compute in F64.ratio 5 10.
Definition f2_5 : float := Eval vm_compute in F64.ratio 25 10.
Definition fm2_5 : float := Eval vm_compute in F64.ratio (-25) 10.
Definition f0_001 : float := Eval vm_compute in F64.ratio 1 1000.

(** The scenario of the specification:
    [zscore = [0, 2.5, 2.6, 0.4, -0.1]]. *)
Definition zscore : Series nat float :=
  [(0, F64.zero); (1, f2_5); (2, F64.ratio 26 10);
   (3, F64.ratio 4 10); (4, F64.ratio (-1) 10)].

(** A z-score that is plus infinity while Flat, and one that is minus
    infinity while Long. *)
Definition zscore_pinf : Series nat float := [(0, F64.zero); (1, F64.pinf)].
Definition zscore_ninf : Series nat float := [(0, fm2_5); (1, F64.ninf)].

(** A z-score with a NaN in the middle of a Short trade. *)
Definition zscore_nan : Series nat float :=
  [(0, f2_5); (1, F64.nan); (2, F64.zero)].

(** Prices [px = [100, 101]], [py = [50, 50]], hedge ratio 1. *)
Definition px : list float := [F64.of_Z 100; F64.of_Z 101].
Definition py : list float := [F64.of_Z 50; F64.of_Z 50].
Definition betas : list float := [F64.one; F64.one].
Definition prices : Series nat float := combine [0; 1] px.
Definition hedges : Series nat float := combine [0; 1] py.

(** [2^1000], a finite binary64 number whose square overflows. *)
Definition huge : float := Eval vm_compute in SFldexp F64.prec F64.emax F64.one 1000.

(** Prices and hedge ratios of [2^1000]: the hedged leg [betas * py]
    overflows, so the spread is minus infinity in both periods. *)
Definition px_one : list float := [F64.one; F64.one].
Definition py_huge : list float := [huge; huge].
Definition betas_huge : list float := [huge; huge].

(** Positions held Long all along, and entered Long in the second period. *)
Definition positions_long : list Z := [1%Z; 1%Z].
Definition positions_enter : list Z := [0%Z; 1%Z].

(** A market in which nothing is at risk: all prices zero. *)
Definition px_zero : list float := [F64.zero; F64.zero].
Definition py_zero : list float := [F64.zero; F64.zero].

End Sample.

(** ** Cumulative columns of [calculate_returns] *)

(** [np.cumsum] and [np.cumprod]: the running fold, left to right, the first
    entry being the first value itself. *)
Fixpoint accumulate_from (f : float -> float -> float) (acc : float)
    (xs : list float) : list float :=
  match xs with
  | [] => []
  | x :: xs' => f acc x :: accumulate_from f (f acc x) xs'
  end.

Definition np_accumulate (f : float -> float -> float) (xs : list float)
  : list float :=
  match xs with
  | [] => []
  | x :: xs' => x :: accumulate_from f x xs'
  end.

(** [Series.cumsum] and [Series.cumprod] skip NaN: a NaN entry counts as the
    neutral element in the running fold and is NaN again in the result. *)
Definition na_accum (f : float -> float -> float) (neutral : float)
    (xs : list float) : list float :=
  let vals := map (fun x => if F64.is_nan x then neutral else x) xs in
  map (fun xr => if F64.is_nan (fst xr) then F64.nan else snd xr)
      (combine xs (np_accumulate f vals)).

Definition cumsum : list float -> list float := na_accum F64.add F64.zero.
Definition cumprod : list float -> list float := na_accum F64.mul F64.one.

Section CumulativeColumns.

Variables px py : list float.
Variable positions_in : list Z.
Variable betas_in : list float.
Variable tc : float.
Variable alphas_in : option (list float).

Definition cum_pnl : list float :=
  cumsum (strategy_pnl px py positions_in betas_in alphas_in).

Definition cum_pnl_net : list float :=
  cumsum (strategy_pnl_net px py positions_in betas_in tc alphas_in).

(** [(1 + daily_return).cumprod() - 1]. *)
Definition cum_returns : list float :=
  map (fun c => F64.sub c F64.one)
      (cumprod (map (F64.add F64.one)
                  (daily_return px py positions_in betas_in alphas_in))).

Definition cum_returns_net : list float :=
  map (fun c => F64.sub c F64.one)
      (cumprod (map (F64.add F64.one)
                  (daily_return_net px py positions_in betas_in tc alphas_in))).

End CumulativeColumns.

(** ** Vocabulary of the further properties *)

(** The fold of a column, left to right, starting from its first entry. *)
Definition fold_from_first (f : float -> float -> float) (gs : list float)
    (empty : float) : float :=
  match gs with
  | [] => empty
  | g :: rest => fold_left f rest g
  end.

(** The product and the sum of a column, left to right. *)
Definition product_of (gs : list float) : float :=
  fold_from_first F64.mul gs F64.one.
Definition sum_of (gs : list float) : float :=
  fold_from_first F64.add gs F64.zero.

(** The position held when step [t] begins: Flat before the first step. *)
Definition previous_position (ps : list Z) (t : nat) : Z :=
  match t with
  | 0 => 0%Z
  | S k => nth k ps 0%Z
  end.

(** Long and Short exchanged. *)
Definition mirror (s : State) : State :=
  match s with
  | Flat => Flat
  | Long => Short
  | Short => Long
  end.

(** [-zscore] and [-positions]. *)
Definition negate_zscore {label : Type} (zscore : Series label float)
  : Series label float :=
  map (fun row => (fst row, F64.opp (snd row))) zscore.
Definition negate_positions {label : Type} (ps : Series label Z)
  : Series label Z :=
  map (fun row => (fst row, Z.opp (snd row))) ps.

(** [x] does not compare below zero: a zero, a positive number, plus
    infinity, or NaN. *)
Definition not_negative (x : float) : bool := negb (F64.ltb x F64.zero).

Definition zero_or_nan (x : float) : bool := F64.is_zero x || F64.is_nan x.

(** Two accumulators of the rolling fit that differ at most in the values of
    their p-values. *)
Definition agree_but_pvals (a1 a2 : fit_lists) : Prop :=
  f_alphas a1 = f_alphas a2 /\ f_betas a1 = f_betas a2
  /\ f_means a1 = f_means a2 /\ f_stds a1 = f_stds a2
  /\ length (f_pvals a1) = length (f_pvals a2).

Module Scenario.

(** A regressor that needs data: it raises on an empty window. *)
Definition ols_needs_data (X Y : Series nat float) : outcome (float * float) :=
  match X with
  | [] => Raised (ValueError "zero-size array")
  | _ :: _ => Returned (F64.zero, F64.one)
  end.

(** A column that holds one repeated non-zero value (so does every
    non-zero column of a single row). *)
Definition is_constant_column (ys : list float) : bool :=
  match ys with
  | [] => false
  | y :: rest => negb (F64.is_zero y) && forallb (fun v => SFeqb v y) rest
  end.

(** A regressor that fails as the two lines of the source do on a constant
    regressor column: [sm.add_constant] then adds no intercept column, the
    fit has a single parameter, and the unpacking [alpha, beta = reg.params]
    raises.  Elsewhere it answers intercept 0 and slope 1. *)
Definition ols_unpacks_two (X Y : Series nat float) : outcome (float * float) :=
  if is_constant_column (values Y)
  then Raised (ValueError "not enough values to unpack (expected 2, got 1)")
  else Returned (F64.zero, F64.one).

(** A cointegration test that always answers 0.25. *)
Definition coint_quarter (X Y : Series nat float) : outcome float :=
  Returned (F64.ratio 1 4).

(** Three prices [100, 101, 103] against [50, 50, 51]. *)
Definition px3 : list float := [F64.of_Z 100; F64.of_Z 101; F64.of_Z 103].
Definition py3 : list float := [F64.of_Z 50; F64.of_Z 50; F64.of_Z 51].
Definition betas3 : list float := [F64.one; F64.one; F64.one].
Definition prices3 : Series nat float := combine [0; 1; 2] px3.
Definition hedges3 : Series nat float := combine [0; 1; 2] py3.

(** Long from the first period on; and never in the market. *)
Definition positions_hold : list Z := [1%Z; 1%Z; 1%Z].
Definition positions_flat : list Z := [0%Z; 0%Z; 0%Z].

End Scenario.

(** * Properties *)

(** ** Lists *)

Lemma last_cons_default {A : Type} (l : list A) :
  forall x d, last (x :: l) d = last l x.
Proof.
  induction l as [|y l IH]; intros x d; [reflexivity|].
  change (last (x :: y :: l) d) with (last (y :: l) d).
  now rewrite !IH.
Qed.

Lemma last_map_default {A B : Type} (f : A -> B) (l : list A) :
  forall d, last (map f l) (f d) = f (last l d).
Proof.
  induction l as [|x l IH]; intros d; [reflexivity|].
  change (map f (x :: l)) with (f x :: map f l).
  now rewrite !last_cons_default, IH.
Qed.

Lemma combine_app_aligned {A B : Type} (l1 l2 : list A) (r1 r2 : list B) :
  length l1 = length r1 ->
  combine (l1 ++ l2) (r1 ++ r2) = combine l1 r1 ++ combine l2 r2.
Proof.
  revert r1. induction l1 as [|a l1 IH]; intros [|b r1] H; cbn in *;
    try reflexivity; try discriminate.
  f_equal. apply IH. lia.
Qed.

(** ** The loop of [generate_positions] and the state machine *)

Section LoopSimulation.

Variables entry exit stop : float.

Lemma loop_body_next_state (ps : list Z) (s : State) (z : float) :
  loop_body entry exit stop (loop_at ps s) z
  = loop_at (ps ++ [position_value (next_state entry exit stop s z)])
            (next_state entry exit stop s z).
Proof.
  unfold loop_body, loop_at.
  destruct s; cbn [in_trade entry_side positions position_value next_state Z.eqb].
  - destruct (F64.gtb z entry); [reflexivity|].
    destruct (F64.ltb z (F64.opp entry)); reflexivity.
  - destruct (F64.ltb (F64.abs z) exit); [reflexivity|].
    destruct (F64.ltb z (F64.opp stop)); reflexivity.
  - destruct (F64.ltb (F64.abs z) exit); [reflexivity|].
    destruct (F64.gtb z stop); reflexivity.
Qed.

Lemma run_loop_trace (zs : list float) :
  forall (ps : list Z) (s : State),
    run_loop entry exit stop zs (loop_at ps s)
    = loop_at (ps ++ map position_value (machine_trace entry exit stop s zs))
              (machine_final entry exit stop s zs).
Proof.
  induction zs as [|z zs IH]; intros ps s; cbn.
  - now rewrite app_nil_r.
  - rewrite loop_body_next_state.
    unfold run_loop in IH. rewrite IH.
    now rewrite <- app_assoc.
Qed.

Lemma machine_trace_length (zs : list float) :
  forall s, length (machine_trace entry exit stop s zs) = length zs.
Proof.
  induction zs as [|z zs IH]; intros s; cbn; [reflexivity|].
  now rewrite IH.
Qed.

Lemma machine_trace_app (zs1 zs2 : list float) :
  forall s,
    machine_trace entry exit stop s (zs1 ++ zs2)
    = machine_trace entry exit stop s zs1
      ++ machine_trace entry exit stop
           (machine_final entry exit stop s zs1) zs2.
Proof.
  induction zs1 as [|z zs1 IH]; intros s; cbn; [reflexivity|].
  now rewrite IH.
Qed.

(** The state after the whole trace is its last entry. *)
Lemma machine_trace_last (zs : list float) :
  forall s,
    last (machine_trace entry exit stop s zs) s
    = machine_final entry exit stop s zs.
Proof.
  induction zs as [|z zs IH]; intros s; [reflexivity|].
  change (machine_trace entry exit stop s (z :: zs))
    with (next_state entry exit stop s z
          :: machine_trace entry exit stop (next_state entry exit stop s z) zs).
  change (machine_final entry exit stop s (z :: zs))
    with (machine_final entry exit stop (next_state entry exit stop s z) zs).
  rewrite last_cons_default. apply IH.
Qed.

(** Each entry of the trace is the successor of the entry before it. *)
Lemma machine_trace_step (zs : list float) :
  forall s t d,
    S t < length zs ->
    nth (S t) (machine_trace entry exit stop s zs) d
    = next_state entry exit stop
        (nth t (machine_trace entry exit stop s zs) d) (nth (S t) zs F64.nan).
Proof.
  induction zs as [|z zs IH]; intros s t d Ht; cbn in Ht; [lia|].
  destruct t as [|t].
  - destruct zs as [|z' zs]; cbn in Ht; [lia|]. reflexivity.
  - cbn [machine_trace nth]. apply IH. lia.
Qed.

(** A NaN z-score fails every comparison of the table. *)
Lemma next_state_nan (s : State) :
  next_state entry exit stop s F64.nan = s.
Proof.
  destruct s; cbn; unfold F64.gtb, F64.ltb, SFltb; cbn.
  - now destruct entry.
  - destruct exit; cbn; now destruct stop.
  - destruct exit; cbn; now destruct stop.
Qed.

(** The machine never reverses a trade in one step. *)
Lemma next_state_no_reversal (s : State) (z : float) :
  (Z.abs (position_value (next_state entry exit stop s z)
          - position_value s) <= 1)%Z.
Proof.
  destruct s; cbn.
  - destruct (F64.gtb z entry); [cbn; lia|].
    destruct (F64.ltb z (F64.opp entry)); cbn; lia.
  - destruct (F64.ltb (F64.abs z) exit); [cbn; lia|].
    destruct (F64.ltb z (F64.opp stop)); cbn; lia.
  - destruct (F64.ltb (F64.abs z) exit); [cbn; lia|].
    destruct (F64.gtb z stop); cbn; lia.
Qed.

End LoopSimulation.

Lemma position_value_range (s : State) :
  position_value s = (-1)%Z \/ position_value s = 0%Z \/ position_value s = 1%Z.
Proof. destruct s; cbn; auto. Qed.

Section SeriesFacts.

Variable label : Type.

Lemma index_length {A : Type} (s : Series label A) :
  length (index s) = length s.
Proof. apply length_map. Qed.

Lemma values_length {A : Type} (s : Series label A) :
  length (values s) = length s.
Proof. apply length_map. Qed.

Lemma pd_Series_returns {A : Type} (data : list A) (idx : list label) :
  length data = length idx ->
  pd_Series data idx = Returned (combine idx data).
Proof.
  intros H. unfold pd_Series.
  now rewrite (proj2 (Nat.eqb_eq _ _) H).
Qed.

Lemma index_combine {A : Type} (idx : list label) (data : list A) :
  length data = length idx -> index (combine idx data) = idx.
Proof.
  revert data. induction idx as [|l idx IH]; intros [|a data] H;
    cbn in *; try reflexivity; try discriminate.
  f_equal. apply IH. lia.
Qed.

Lemma values_combine {A : Type} (idx : list label) (data : list A) :
  length data = length idx -> values (combine idx data) = data.
Proof.
  revert data. induction idx as [|l idx IH]; intros [|a data] H;
    cbn in *; try reflexivity; try discriminate.
  f_equal. apply IH. lia.
Qed.

End SeriesFacts.

(** ** [generate_positions] *)

Section GeneratePositionsFacts.

Variable label : Type.
Variables entry exit stop : float.

(** The function returns the machine's positions on the input's index. *)
Lemma generate_positions_machine (zscore : Series label float) :
  generate_positions zscore entry exit stop
  = Returned (combine (index zscore)
                (machine_positions entry exit stop (values zscore))).
Proof.
  unfold generate_positions.
  change loop_init with (loop_at [] Flat).
  rewrite run_loop_trace. cbn [loop_at positions app].
  apply pd_Series_returns. unfold machine_positions.
  now rewrite length_map, machine_trace_length, index_length, values_length.
Qed.

Lemma machine_positions_length (zs : list float) :
  length (machine_positions entry exit stop zs) = length zs.
Proof.
  unfold machine_positions. now rewrite length_map, machine_trace_length.
Qed.

Lemma generate_positions_values (zscore : Series label float) :
  values (combine (index zscore)
            (machine_positions entry exit stop (values zscore)))
  = machine_positions entry exit stop (values zscore).
Proof.
  apply values_combine.
  now rewrite machine_positions_length, index_length, values_length.
Qed.

Lemma machine_positions_range (zs : list float) :
  Forall (fun v => v = (-1)%Z \/ v = 0%Z \/ v = 1%Z)
    (machine_positions entry exit stop zs).
Proof.
  unfold machine_positions. apply Forall_map, Forall_forall.
  intros s _. apply position_value_range.
Qed.

(** Consecutive positions of the machine differ by at most one. *)
Lemma machine_positions_adjacent (zs : list float) (t : nat) :
  S t < length zs ->
  (Z.abs (nth (S t) (machine_positions entry exit stop zs) 0
          - nth t (machine_positions entry exit stop zs) 0) <= 1)%Z.
Proof.
  intros Ht. unfold machine_positions.
  change 0%Z with (position_value Flat).
  rewrite !map_nth, machine_trace_step by assumption.
  apply next_state_no_reversal.
Qed.

Lemma machine_positions_app (zs1 zs2 : list float) :
  machine_positions entry exit stop (zs1 ++ zs2)
  = machine_positions entry exit stop zs1
    ++ map position_value
         (machine_trace entry exit stop
            (machine_final entry exit stop Flat zs1) zs2).
Proof.
  unfold machine_positions. now rewrite machine_trace_app, map_app.
Qed.

End GeneratePositionsFacts.

(** C1: with the initial state Flat, [generate_positions] returns, on the
    index of its input, the positions of the state machine whose transition
    table is [next_state] (conditions taken in the order of the table's
    rows), the position emitted at each step being the value of the new
    state.  This holds for all thresholds, the well-formed ones included. *)
Theorem generate_positions_follows_state_machine :
  forall (label : Type) (zscore : Series label float)
         (entryThreshold exitThreshold stopZ : float),
    generate_positions zscore entryThreshold exitThreshold stopZ
    = Returned (combine (index zscore)
                  (machine_positions entryThreshold exitThreshold stopZ
                     (values zscore))).
Proof. intros. apply generate_positions_machine. Qed.

(** The scenario of the specification: thresholds 2.0, 0.5 and 3.0 on
    [0, 2.5, 2.6, 0.4, -0.1] give [0, -1, -1, 0, 0]. *)
Example generate_positions_scenario :
  generate_positions Sample.zscore Sample.f2_0 Sample.f0_5 stop_z_default
  = Returned [(0, 0%Z); (1, (-1)%Z); (2, (-1)%Z); (3, 0%Z); (4, 0%Z)].
Proof. vm_compute. reflexivity. Qed.

(** C9: for every z-score Series and all thresholds, [generate_positions]
    returns a Series whose values all lie in {-1, 0, 1} and whose length and
    index are those of the input. *)
Theorem generate_positions_values_and_index :
  forall (label : Type) (zscore : Series label float)
         (entryThreshold exitThreshold stopZ : float),
  exists ps : Series label Z,
    generate_positions zscore entryThreshold exitThreshold stopZ = Returned ps
    /\ Forall (fun v => v = (-1)%Z \/ v = 0%Z \/ v = 1%Z) (values ps)
    /\ length ps = length zscore
    /\ index ps = index zscore.
Proof.
  intros label zscore e x s.
  eexists. split; [apply generate_positions_machine|].
  assert (Hlen : length (machine_positions e x s (values zscore))
                 = length (index zscore)).
  { now rewrite machine_positions_length, index_length, values_length. }
  split; [|split].
  - rewrite generate_positions_values. apply machine_positions_range.
  - rewrite length_combine, Hlen, Nat.min_id. apply index_length.
  - now apply index_combine.
Qed.

(** C2, as stated, fails: a z-score of plus infinity met while Flat opens a
    Short trade, and one of minus infinity met while Long stops the trade
    out; in both runs the position at step 1 differs from the position at
    step 0 although the z-score at step 1 is not finite. *)
Lemma infinite_zscore_changes_state :
  (F64.is_finite (nth 1 (values Sample.zscore_pinf) F64.zero) = false
   /\ exists ps : Series nat Z,
        generate_positions Sample.zscore_pinf Sample.f2_0 Sample.f0_5
          stop_z_default
        = Returned ps
        /\ values ps = [0; -1]%Z
        /\ nth 1 (values ps) 0%Z <> nth 0 (values ps) 0%Z)
  /\ (F64.is_finite (nth 1 (values Sample.zscore_ninf) F64.zero) = false
      /\ exists ps : Series nat Z,
           generate_positions Sample.zscore_ninf Sample.f2_0 Sample.f0_5
             stop_z_default
           = Returned ps
           /\ values ps = [1; 0]%Z
           /\ nth 1 (values ps) 0%Z <> nth 0 (values ps) 0%Z).
Proof.
  split; (split; [reflexivity|]); eexists;
    (split; [vm_compute; reflexivity|]);
    (split; [reflexivity|cbn; discriminate]).
Qed.

(** No threshold is above plus infinity, and plus infinity is below
    nothing. *)
Lemma ltb_pinf_l (x : float) : F64.ltb F64.pinf x = false.
Proof. destruct x as [s|s| |s m e]; try reflexivity; now destruct s. Qed.

Lemma ltb_ninf_r (x : float) : F64.ltb x F64.ninf = false.
Proof. destruct x as [s|s| |s m e]; try reflexivity; now destruct s. Qed.

Section HeldThrough.

Variables entry exit stop : float.

Lemma next_state_held (st : State) (z : float) :
  held_through (position_value st) z ->
  next_state entry exit stop st z = st.
Proof.
  intros [Hn|[[-> Hp]|[-> Hp]]].
  - destruct z; try discriminate. apply next_state_nan.
  - destruct st; try discriminate. cbn [next_state].
    change (F64.abs F64.pinf) with F64.pinf.
    now rewrite !ltb_pinf_l.
  - destruct st; try discriminate. cbn [next_state]. unfold F64.gtb.
    change (F64.abs F64.ninf) with F64.pinf.
    change SFltb with F64.ltb.
    now rewrite ltb_pinf_l, ltb_ninf_r.
Qed.

(** The positions before, at and after a z-score that is held through. *)
Lemma machine_positions_held (zs1 zs2 : list float) (z : float) :
  held_through (last (machine_positions entry exit stop zs1) 0%Z) z ->
  machine_positions entry exit stop (zs1 ++ z :: zs2)
  = machine_positions entry exit stop zs1
    ++ last (machine_positions entry exit stop zs1) 0%Z
    :: map position_value
         (machine_trace entry exit stop
            (machine_final entry exit stop Flat zs1) zs2).
Proof.
  unfold machine_positions. change 0%Z with (position_value Flat).
  rewrite last_map_default, machine_trace_last. intros H.
  rewrite machine_trace_app, map_app. f_equal.
  cbn [machine_trace map]. now rewrite (next_state_held _ H).
Qed.

End HeldThrough.

(** C2, amended: the state is kept at a NaN z-score, whatever the state and
    the thresholds are, and also at plus infinity while Long and at minus
    infinity while Short.  For every Series with such a z-score at some
    step, the position emitted at that step is the position of the step
    before (Flat, 0, at the first step), and the positions of all other
    steps are those of the Series without that row; the call returns on
    every input.  Nothing is said of the other infinite z-scores (an
    infinity while Flat, minus infinity while Long, plus infinity while
    Short). *)
Theorem nan_and_same_side_infinity_keep_state :
  forall (label : Type) (before after : Series label float) (l : label)
         (z : float) (entryThreshold exitThreshold stopZ : float),
  exists ps1 ps2 : Series label Z,
    generate_positions before entryThreshold exitThreshold stopZ
    = Returned ps1
    /\ generate_positions (before ++ after) entryThreshold exitThreshold stopZ
       = Returned (ps1 ++ ps2)
    /\ (held_through (last (values ps1) 0%Z) z ->
        generate_positions (before ++ (l, z) :: after)
          entryThreshold exitThreshold stopZ
        = Returned (ps1 ++ (l, last (values ps1) 0%Z) :: ps2)).
Proof.
  intros label before after l z e x s.
  exists (combine (index before) (machine_positions e x s (values before))).
  exists (combine (index after)
            (map position_value
               (machine_trace e x s
                  (machine_final e x s Flat (values before)) (values after)))).
  assert (Hlen : length (index before)
                 = length (machine_positions e x s (values before))).
  { now rewrite machine_positions_length, index_length, values_length. }
  rewrite !generate_positions_machine, generate_positions_values.
  split; [reflexivity|]. split.
  - unfold index, values. rewrite !map_app, machine_positions_app.
    now rewrite combine_app_aligned by exact Hlen.
  - intros H. f_equal.
    unfold index, values in *. rewrite !map_app. cbn [map fst snd].
    rewrite machine_positions_held by exact H.
    now rewrite combine_app_aligned by exact Hlen.
Qed.

(** Plus infinity in the middle of a Long trade: the position of the step
    before, +1, is emitted again. *)
Lemma nan_and_same_side_infinity_keep_state_witness :
  generate_positions
    [(0, Sample.fm2_5); (1, F64.pinf); (2, F64.zero)]
    Sample.f2_0 Sample.f0_5 stop_z_default
  = Returned [(0, 1%Z); (1, 1%Z); (2, 0%Z)].
Proof.
  destruct (nan_and_same_side_infinity_keep_state
              [(0, Sample.fm2_5)] [(2, F64.zero)] 1 F64.pinf
              Sample.f2_0 Sample.f0_5 stop_z_default)
    as (ps1 & ps2 & H1 & H2 & H3).
  vm_compute in H1. injection H1 as <-.
  vm_compute in H2. injection H2 as <-.
  apply H3. right. left. split; reflexivity.
Defined.

(** The NaN in the middle of a Short trade is held through. *)
Example nan_zscore_scenario :
  generate_positions Sample.zscore_nan Sample.f2_0 Sample.f0_5 stop_z_default
  = Returned [(0, (-1)%Z); (1, (-1)%Z); (2, 0%Z)].
Proof. vm_compute. reflexivity. Qed.

(** ** binary64 facts *)

Module F64Facts.

Lemma sub_nan_r (x : float) : F64.sub x F64.nan = F64.nan.
Proof. now destruct x. Qed.

(** Dividing by a zero never gives a finite number. *)
Lemma div_by_zero_not_finite (x d : float) :
  F64.is_zero d = true -> F64.is_finite (F64.div x d) = false.
Proof. destruct d; try discriminate. intros _. now destruct x. Qed.

(** A zero is not greater than zero. *)
Lemma zero_not_positive (x : float) :
  F64.is_zero x = true -> F64.gtb x F64.zero = false.
Proof. destruct x; try discriminate. reflexivity. Qed.

(** What is not finite is replaced by zero. *)
Lemma fill0_noinf0_not_finite (q : float) :
  F64.is_finite q = false -> fill0 (noinf0 q) = F64.zero.
Proof. destruct q; try discriminate; reflexivity. Qed.

Lemma fill0_not_nan (x : float) : F64.is_nan x = false -> fill0 x = x.
Proof. unfold fill0. now intros ->. Qed.

(** Rounding keeps a non-negative significand non-negative, so the result
    of rounding is a zero, a finite number or an infinity. *)
Lemma shr_1_nonneg (mrs : shr_record) :
  (0 <= shr_m mrs)%Z -> (0 <= shr_m (shr_1 mrs))%Z.
Proof.
  destruct mrs as [m r s]; cbn [shr_m]; intros H.
  destruct m as [|p|p]; [cbn; lia| |lia].
  destruct p; cbn; lia.
Qed.

Lemma iter_shr_1_nonneg (p : positive) :
  forall mrs, (0 <= shr_m mrs)%Z -> (0 <= shr_m (iter_pos shr_1 p mrs))%Z.
Proof.
  induction p as [p IH|p IH|]; intros mrs H; cbn [iter_pos].
  - apply IH, IH, shr_1_nonneg, H.
  - apply IH, IH, H.
  - apply shr_1_nonneg, H.
Qed.

Lemma shr_fexp_nonneg (m e : Z) (l : location) :
  (0 <= m)%Z ->
  (0 <= shr_m (fst (shr_fexp F64.prec F64.emax m e l)))%Z.
Proof.
  intros H. unfold shr_fexp, shr.
  assert (H0 : (0 <= shr_m (shr_record_of_loc m l))%Z).
  { destruct l as [|[]]; exact H. }
  destruct (fexp F64.prec F64.emax (Zdigits2 m + e) - e)%Z;
    cbn [fst]; auto using iter_shr_1_nonneg.
Qed.

Lemma round_nearest_even_nonneg (m : Z) (l : location) :
  (0 <= m)%Z -> (0 <= round_nearest_even m l)%Z.
Proof.
  intros H. destruct l as [|[]]; cbn; try lia.
  destruct (Z.even m); lia.
Qed.

Lemma binary_round_aux_not_nan (sx : bool) (mx ex : Z) (lx : location) :
  (0 <= mx)%Z ->
  F64.is_nan (binary_round_aux F64.prec F64.emax sx mx ex lx) = false.
Proof.
  intros H. unfold binary_round_aux.
  pose proof (shr_fexp_nonneg ex lx H) as H1.
  destruct (shr_fexp F64.prec F64.emax mx ex lx) as [mrs' e'].
  cbn [fst] in H1.
  pose proof (shr_fexp_nonneg e' loc_Exact
                (round_nearest_even_nonneg (loc_of_shr_record mrs') H1)) as H2.
  destruct (shr_fexp F64.prec F64.emax
              (round_nearest_even (shr_m mrs') (loc_of_shr_record mrs'))
              e' loc_Exact) as [mrs'' e''].
  cbn [fst] in H2.
  destruct (shr_m mrs'') as [|p|p]; [reflexivity| |lia].
  now destruct (e'' <=? F64.emax - F64.prec)%Z.
Qed.

(** An integer never converts to NaN. *)
Lemma of_Z_not_nan (n : Z) : F64.is_nan (F64.of_Z n) = false.
Proof.
  unfold F64.of_Z, binary_normalize.
  destruct n as [|p|p]; [reflexivity| |];
    unfold binary_round;
    destruct (shl_align p 0 (fexp F64.prec F64.emax (Z.pos (digits2_pos p) + 0)));
    apply binary_round_aux_not_nan; lia.
Qed.

End F64Facts.

(** ** Columns *)

Section ColumnFacts.

Variable f : float -> float -> float.

Lemma series_op_length (xs : list float) :
  forall ys, length (series_op f xs ys) = Nat.max (length xs) (length ys).
Proof.
  induction xs as [|x xs IH]; intros [|y ys]; cbn [series_op length].
  - reflexivity.
  - now rewrite length_map.
  - now rewrite length_map.
  - now rewrite IH.
Qed.

(** Within either operand the result is [f] of the two entries, a missing
    entry counting as NaN. *)
Lemma series_op_nth (xs : list float) :
  forall ys t,
    t < Nat.max (length xs) (length ys) ->
    nth t (series_op f xs ys) F64.nan
    = f (nth t xs F64.nan) (nth t ys F64.nan).
Proof.
  induction xs as [|x xs IH]; intros [|y ys] t Ht; cbn [length] in Ht.
  - cbn in Ht. lia.
  - cbn [series_op].
    rewrite (nth_indep _ F64.nan (f F64.nan F64.nan))
      by (rewrite length_map; cbn [length] in *; lia).
    rewrite (map_nth (f F64.nan)). now destruct t.
  - cbn [series_op].
    rewrite (nth_indep _ F64.nan ((fun x => f x F64.nan) F64.nan))
      by (rewrite length_map; cbn [length] in *; lia).
    rewrite (map_nth (fun x => f x F64.nan)). now destruct t.
  - cbn [series_op]. destruct t as [|t]; [reflexivity|].
    cbn [nth]. apply IH. lia.
Qed.

End ColumnFacts.

Lemma removelast_nth {A : Type} (l : list A) :
  forall t d, S t < length l -> nth t (removelast l) d = nth t l d.
Proof.
  induction l as [|x l IH]; intros t d Ht; cbn [length] in Ht; [lia|].
  destruct l as [|y l]; [cbn in Ht; lia|].
  change (removelast (x :: y :: l)) with (x :: removelast (y :: l)).
  destruct t as [|t]; [reflexivity|].
  cbn [nth]. apply IH. cbn [length] in *. lia.
Qed.

Lemma shift1_length (xs : list float) : length (shift1 xs) = length xs.
Proof.
  destruct xs as [|x xs]; [reflexivity|].
  unfold shift1. cbn [length]. f_equal.
  induction xs as [|y xs IH] in x |- *; [reflexivity|].
  change (removelast (x :: y :: xs)) with (x :: removelast (y :: xs)).
  cbn [length]. f_equal. apply IH.
Qed.

Lemma shift1_nth_0 (xs : list float) : nth 0 (shift1 xs) F64.nan = F64.nan.
Proof. now destruct xs. Qed.

Lemma shift1_nth_S (xs : list float) (t : nat) :
  S t < length xs -> nth (S t) (shift1 xs) F64.nan = nth t xs F64.nan.
Proof.
  intros Ht. destruct xs as [|x xs]; [cbn in Ht; lia|].
  change (nth t (removelast (x :: xs)) F64.nan = nth t (x :: xs) F64.nan).
  now apply removelast_nth.
Qed.

Lemma diff_length (xs : list float) : length (diff xs) = length xs.
Proof.
  unfold diff. now rewrite series_op_length, shift1_length, Nat.max_id.
Qed.

Lemma diff_nth_0 (xs : list float) : nth 0 (diff xs) F64.nan = F64.nan.
Proof.
  destruct xs as [|x xs]; [reflexivity|].
  cbn. apply F64Facts.sub_nan_r.
Qed.

Lemma diff_nth_S (xs : list float) (t : nat) :
  S t < length xs ->
  nth (S t) (diff xs) F64.nan
  = F64.sub (nth (S t) xs F64.nan) (nth t xs F64.nan).
Proof.
  intros Ht. unfold diff.
  rewrite series_op_nth by (rewrite shift1_length; lia).
  now rewrite shift1_nth_S.
Qed.

(** Entries of a [fillna(0)] column, read with default zero. *)
Lemma fillna0_nth (xs : list float) (t : nat) :
  nth t (fillna0 xs) F64.zero = fill0 (nth t xs F64.nan).
Proof. unfold fillna0. apply (map_nth fill0 xs F64.nan). Qed.

Lemma fillna0_length (xs : list float) : length (fillna0 xs) = length xs.
Proof. apply length_map. Qed.

(** An entry inside a column, as [nth_error] gives it. *)
Lemma nth_error_inside {A : Type} (l : list A) (t : nat) (d : A) :
  t < length l -> nth_error l t = Some (nth t l d).
Proof. intros H. now apply nth_error_nth'. Qed.

Lemma fillna0_nth_inside (xs : list float) (t : nat) :
  t < length xs -> nth t (fillna0 xs) F64.nan = fill0 (nth t xs F64.nan).
Proof.
  intros H. rewrite <- fillna0_nth. apply nth_indep.
  now rewrite fillna0_length.
Qed.

Lemma map_nth_inside {A : Type} (g : A -> float) (l : list A) (t : nat) (d : A) :
  t < length l -> nth t (map g l) F64.nan = g (nth t l d).
Proof.
  intros H. rewrite <- (map_nth g l d). apply nth_indep.
  now rewrite length_map.
Qed.

(** ** [calculate_returns] *)

Section CalculateReturnsFacts.

Variables px py : list float.
Variable positions_in : list Z.
Variable betas_in : list float.
Variable tc : float.
Variable alphas_in : option (list float).

Lemma spread_length_ge :
  length px <= length (spread px py betas_in alphas_in).
Proof. unfold spread. rewrite series_op_length. lia. Qed.

Lemma spread_change_length :
  length (spread_change px py betas_in alphas_in)
  = length (spread px py betas_in alphas_in).
Proof. unfold spread_change. now rewrite fillna0_length, diff_length. Qed.

Lemma pos_lag_length : length (pos_lag positions_in) = length positions_in.
Proof.
  unfold pos_lag, positions_f.
  now rewrite fillna0_length, shift1_length, length_map.
Qed.

Lemma pos_lag_nth_0 :
  0 < length positions_in -> nth 0 (pos_lag positions_in) F64.nan = F64.zero.
Proof.
  intros H. unfold pos_lag.
  rewrite fillna0_nth_inside
    by (unfold positions_f; now rewrite shift1_length, length_map).
  now rewrite shift1_nth_0.
Qed.

Lemma pos_lag_nth_S (t : nat) :
  S t < length positions_in ->
  nth (S t) (pos_lag positions_in) F64.nan
  = F64.of_Z (nth t positions_in 0%Z).
Proof.
  intros H. unfold pos_lag, positions_f.
  rewrite fillna0_nth_inside by now rewrite shift1_length, length_map.
  rewrite shift1_nth_S by now rewrite length_map.
  rewrite (map_nth_inside F64.of_Z positions_in 0%Z) by lia.
  apply F64Facts.fill0_not_nan, F64Facts.of_Z_not_nan.
Qed.

Lemma spread_change_nth_0 :
  0 < length px ->
  nth 0 (spread_change px py betas_in alphas_in) F64.nan = F64.zero.
Proof.
  intros H. pose proof spread_length_ge.
  unfold spread_change.
  rewrite fillna0_nth_inside by (rewrite diff_length; lia).
  now rewrite diff_nth_0.
Qed.

Lemma spread_change_nth_S (t : nat) :
  S t < length (spread px py betas_in alphas_in) ->
  nth (S t) (spread_change px py betas_in alphas_in) F64.nan
  = fill0 (F64.sub (nth (S t) (spread px py betas_in alphas_in) F64.nan)
                   (nth t (spread px py betas_in alphas_in) F64.nan)).
Proof.
  intros H. unfold spread_change.
  rewrite fillna0_nth_inside by now rewrite diff_length.
  now rewrite diff_nth_S.
Qed.

Lemma strategy_pnl_nth (t : nat) :
  t < length (spread px py betas_in alphas_in) ->
  nth_error (strategy_pnl px py positions_in betas_in alphas_in) t
  = Some (F64.mul (nth t (pos_lag positions_in) F64.nan)
            (nth t (spread_change px py betas_in alphas_in) F64.nan)).
Proof.
  intros H. unfold strategy_pnl.
  rewrite (nth_error_inside _ F64.nan)
    by (rewrite series_op_length, spread_change_length; lia).
  now rewrite series_op_nth by (rewrite spread_change_length; lia).
Qed.

Lemma capital_shift_length :
  length (capital_shift px py betas_in)
  = length (gross_notional px py betas_in).
Proof. apply shift1_length. Qed.

(** A return column is the quotient column with every value that is not
    finite replaced by zero. *)
Lemma return_of_quotient (pnl : list float) (t : nat) (q : float) :
  nth_error (series_op F64.div pnl (capital_shift px py betas_in)) t = Some q ->
  nth_error
    (fillna0 (replace_inf0
                (series_op F64.div pnl (capital_shift px py betas_in)))) t
  = Some (fill0 (noinf0 q)).
Proof.
  intros H. unfold fillna0, replace_inf0.
  now rewrite !nth_error_map, H.
Qed.

(** The quotient one period after a zero gross notional is not finite. *)
Lemma quotient_after_zero_notional (pnl : list float) (t : nat) (g : float) :
  nth_error (gross_notional px py betas_in) t = Some g ->
  S t < length (gross_notional px py betas_in) ->
  F64.is_zero g = true ->
  exists q,
    nth_error (series_op F64.div pnl (capital_shift px py betas_in)) (S t)
    = Some q
    /\ F64.is_finite q = false.
Proof.
  intros Hg Ht Hz.
  exists (F64.div (nth (S t) pnl F64.nan) g). split.
  - rewrite (nth_error_inside _ F64.nan)
      by (rewrite series_op_length, capital_shift_length; lia).
    rewrite series_op_nth by (rewrite capital_shift_length; lia).
    unfold capital_shift. rewrite shift1_nth_S by exact Ht.
    do 2 f_equal. exact (nth_error_nth _ _ F64.nan Hg).
  - now apply F64Facts.div_by_zero_not_finite.
Qed.

End CalculateReturnsFacts.

(** The turnover between two admissible positions that are not a reversal is
    0.0 or 1.0. *)
Lemma turnover_of_adjacent (a b : Z) :
  (a = -1 \/ a = 0 \/ a = 1)%Z -> (b = -1 \/ b = 0 \/ b = 1)%Z ->
  (Z.abs (b - a) <= 1)%Z ->
  fill0 (F64.abs (F64.of_Z (wrap_int64 (b - a)))) = F64.zero
  \/ fill0 (F64.abs (F64.of_Z (wrap_int64 (b - a)))) = F64.one.
Proof.
  intros [Ha|[Ha|Ha]] [Hb|[Hb|Hb]] H; subst a b; try (exfalso; lia);
    vm_compute; auto.
Qed.

Lemma diff_int64_length (ps : list Z) : length (diff_int64 ps) = length ps.
Proof.
  destruct ps as [|p rest]; [reflexivity|].
  cbn [diff_int64 length]. rewrite length_map, length_combine.
  cbn [length]. lia.
Qed.

Lemma diff_pairs_nth (g : Z * Z -> float) (rest : list Z) :
  forall (p : Z) (t : nat),
    t < length rest ->
    nth t (map g (combine (p :: rest) rest)) F64.nan
    = g (nth t (p :: rest) 0%Z, nth t rest 0%Z).
Proof.
  induction rest as [|r rest IH]; intros p t Ht; cbn [length] in Ht; [lia|].
  destruct t as [|t]; [reflexivity|].
  change (combine (p :: r :: rest) (r :: rest))
    with ((p, r) :: combine (r :: rest) rest).
  cbn [map nth]. rewrite IH by lia. reflexivity.
Qed.

Lemma diff_int64_nth_0 (ps : list Z) : nth 0 (diff_int64 ps) F64.nan = F64.nan.
Proof. now destruct ps. Qed.

Lemma diff_int64_nth_S (ps : list Z) (t : nat) :
  S t < length ps ->
  nth (S t) (diff_int64 ps) F64.nan
  = F64.of_Z (wrap_int64 (nth (S t) ps 0%Z - nth t ps 0%Z)).
Proof.
  intros Ht. destruct ps as [|p rest]; cbn [length] in Ht; [lia|].
  cbn [diff_int64 nth]. rewrite diff_pairs_nth by lia. reflexivity.
Qed.

Lemma units_traded_nth_0 (ps : list Z) :
  nth 0 (units_traded ps) F64.zero = F64.zero.
Proof.
  unfold units_traded. rewrite fillna0_nth.
  change F64.nan with (F64.abs F64.nan) at 1.
  now rewrite map_nth, diff_int64_nth_0.
Qed.

Lemma units_traded_nth_S (ps : list Z) (t : nat) :
  S t < length ps ->
  nth (S t) (units_traded ps) F64.zero
  = fill0 (F64.abs (F64.of_Z (wrap_int64 (nth (S t) ps 0%Z
                                          - nth t ps 0%Z)))).
Proof.
  intros H. unfold units_traded. rewrite fillna0_nth.
  change F64.nan with (F64.abs F64.nan) at 1.
  now rewrite map_nth, diff_int64_nth_S.
Qed.

Lemma units_traded_length (ps : list Z) : length (units_traded ps) = length ps.
Proof.
  unfold units_traded.
  now rewrite fillna0_length, length_map, diff_int64_length.
Qed.

(** C5, as stated, fails: with finite prices whose hedged leg overflows, the
    spread is minus infinity in both periods, so [spread[1] - spread[0]] is
    NaN and the claim's product is NaN, while the code, which replaces a NaN
    spread change by zero, reports a gross P&L of zero for period 1. *)
Lemma strategy_pnl_nan_spread_change :
  let spread := spread Sample.px_one Sample.py_huge Sample.betas_huge None in
  let pnl := strategy_pnl Sample.px_one Sample.py_huge Sample.positions_long
               Sample.betas_huge None in
  forallb F64.valid (Sample.px_one ++ Sample.py_huge ++ Sample.betas_huge)
  = true
  /\ forallb F64.is_finite (Sample.px_one ++ Sample.py_huge ++ Sample.betas_huge)
     = true
  /\ spread = [F64.ninf; F64.ninf]
  /\ nth_error pnl 1 = Some F64.zero
  /\ F64.mul (F64.of_Z (nth 0 Sample.positions_long 0%Z))
       (F64.sub (nth 1 spread F64.nan) (nth 0 spread F64.nan))
     = F64.nan
  /\ nth 1 pnl F64.nan
     <> F64.mul (F64.of_Z (nth 0 Sample.positions_long 0%Z))
          (F64.sub (nth 1 spread F64.nan) (nth 0 spread F64.nan)).
Proof. vm_compute. repeat split. discriminate. Qed.

(** C5, amended: for every period [t >= 1] of the position Series, the lagged
    position is the position decided at [t - 1]; where the difference
    [spread[t] - spread[t-1]] is not NaN, it is the spread change and the
    gross P&L is the lagged position times it; where the difference is NaN,
    the spread change is zero and the gross P&L is the lagged position times
    zero.  In the very first period the lagged position, the spread change
    and hence the gross P&L are zero. *)
Theorem strategy_pnl_lagged_position :
  forall (px py : list float) (positions : list Z) (betas : list float)
         (alphas : option (list float)),
    (0 < length positions -> 0 < length px ->
     nth_error (pos_lag positions) 0 = Some F64.zero
     /\ nth_error (spread_change px py betas alphas) 0 = Some F64.zero
     /\ nth_error (strategy_pnl px py positions betas alphas) 0
        = Some F64.zero)
    /\ (forall (t : nat) (p : Z) (s0 s1 : float),
          S t < length positions ->
          nth_error positions t = Some p ->
          nth_error (spread px py betas alphas) t = Some s0 ->
          nth_error (spread px py betas alphas) (S t) = Some s1 ->
          nth_error (pos_lag positions) (S t) = Some (F64.of_Z p)
          /\ (F64.is_nan (F64.sub s1 s0) = false ->
              nth_error (spread_change px py betas alphas) (S t)
              = Some (F64.sub s1 s0)
              /\ nth_error (strategy_pnl px py positions betas alphas) (S t)
                 = Some (F64.mul (F64.of_Z p) (F64.sub s1 s0)))
          /\ (F64.is_nan (F64.sub s1 s0) = true ->
              nth_error (spread_change px py betas alphas) (S t)
              = Some F64.zero
              /\ nth_error (strategy_pnl px py positions betas alphas) (S t)
                 = Some (F64.mul (F64.of_Z p) F64.zero))).
Proof.
  intros px py positions betas alphas. split.
  - intros Hp Hx.
    pose proof (spread_length_ge px py betas alphas) as Hs.
    rewrite (nth_error_inside _ F64.nan) by (rewrite pos_lag_length; lia).
    rewrite (nth_error_inside _ F64.nan) by (rewrite spread_change_length; lia).
    rewrite strategy_pnl_nth by lia.
    rewrite pos_lag_nth_0, spread_change_nth_0 by assumption.
    repeat split.
  - intros t p s0 s1 Ht Hp H0 H1.
    assert (Hlen : S t < length (spread px py betas alphas)).
    { apply nth_error_Some. rewrite H1. discriminate. }
    pose proof (nth_error_nth _ _ F64.nan H0) as E0.
    pose proof (nth_error_nth _ _ F64.nan H1) as E1.
    pose proof (nth_error_nth _ _ 0%Z Hp) as Ep.
    assert (Hlag : nth (S t) (pos_lag positions) F64.nan = F64.of_Z p).
    { rewrite pos_lag_nth_S by exact Ht. now rewrite Ep. }
    assert (Hchg : nth (S t) (spread_change px py betas alphas) F64.nan
                   = fill0 (F64.sub s1 s0)).
    { rewrite spread_change_nth_S by exact Hlen. now rewrite E0, E1. }
    split; [|split].
    + rewrite (nth_error_inside _ F64.nan) by (rewrite pos_lag_length; lia).
      now rewrite Hlag.
    + intros Hn.
      rewrite (nth_error_inside _ F64.nan)
        by (rewrite spread_change_length; lia).
      rewrite strategy_pnl_nth, Hlag, Hchg by exact Hlen.
      unfold fill0. rewrite Hn. now split.
    + intros Hn.
      rewrite (nth_error_inside _ F64.nan)
        by (rewrite spread_change_length; lia).
      rewrite strategy_pnl_nth, Hlag, Hchg by exact Hlen.
      unfold fill0. rewrite Hn. now split.
Qed.

(** The prices of the specification's scenario, positions [0, 1]: the
    position decided in period 0 is Flat, so period 1 earns [0 * 1]. *)
Lemma strategy_pnl_lagged_position_witness :
  nth_error (strategy_pnl Sample.px Sample.py Sample.positions_enter
               Sample.betas None) 1
  = Some (F64.mul (F64.of_Z 0) (F64.sub (F64.of_Z 51) (F64.of_Z 50))).
Proof.
  refine (proj2 (proj1 (proj2 (proj2
            (strategy_pnl_lagged_position Sample.px Sample.py
               Sample.positions_enter Sample.betas None)
            0 0%Z (F64.of_Z 50) (F64.of_Z 51) _ _ _ _)) _)).
  - cbn. lia.
  - reflexivity.
  - vm_compute. reflexivity.
  - vm_compute. reflexivity.
  - vm_compute. reflexivity.
Defined.

(** C6: in every period that follows a zero gross notional, the gross and
    the net percentage return are exactly zero; and in every period whose
    quotient P&L / lagged notional is not finite (NaN or an infinity; the
    first period, whose lagged notional is missing, is such a period), the
    return computed from that quotient is exactly zero.  The columns are
    total: no period raises. *)
Theorem returns_zero_without_capital :
  forall (px py : list float) (positions : list Z) (betas : list float)
         (tc : float) (alphas : option (list float)),
    (forall (t : nat) (g : float),
        nth_error (gross_notional px py betas) t = Some g ->
        S t < length (gross_notional px py betas) ->
        F64.is_zero g = true ->
        nth_error (daily_return px py positions betas alphas) (S t)
        = Some F64.zero
        /\ nth_error (daily_return_net px py positions betas tc alphas) (S t)
           = Some F64.zero)
    /\ (forall (t : nat) (q : float),
          nth_error (series_op F64.div
                       (strategy_pnl px py positions betas alphas)
                       (capital_shift px py betas)) t = Some q ->
          F64.is_finite q = false ->
          nth_error (daily_return px py positions betas alphas) t
          = Some F64.zero)
    /\ (forall (t : nat) (q : float),
          nth_error (series_op F64.div
                       (strategy_pnl_net px py positions betas tc alphas)
                       (capital_shift px py betas)) t = Some q ->
          F64.is_finite q = false ->
          nth_error (daily_return_net px py positions betas tc alphas) t
          = Some F64.zero).
Proof.
  intros px py positions betas tc alphas.
  assert (Hq : forall pnl t q,
             nth_error (series_op F64.div pnl (capital_shift px py betas)) t
             = Some q ->
             F64.is_finite q = false ->
             nth_error
               (fillna0 (replace_inf0
                  (series_op F64.div pnl (capital_shift px py betas)))) t
             = Some F64.zero).
  { intros pnl t q H Hf.
    rewrite (return_of_quotient _ _ _ _ _ H).
    now rewrite F64Facts.fill0_noinf0_not_finite. }
  split; [|split].
  - intros t g Hg Ht Hz. split.
    + destruct (quotient_after_zero_notional px py betas
                  (strategy_pnl px py positions betas alphas) Hg Ht Hz)
        as (q & H & Hf).
      exact (Hq _ _ _ H Hf).
    + destruct (quotient_after_zero_notional px py betas
                  (strategy_pnl_net px py positions betas tc alphas) Hg Ht Hz)
        as (q & H & Hf).
      exact (Hq _ _ _ H Hf).
  - intros t q. apply Hq.
  - intros t q. apply Hq.
Qed.

(** With all prices zero nothing is at risk in period 0, and the return of
    period 1 is zero, gross and net. *)
Lemma returns_zero_without_capital_witness :
  nth_error (daily_return Sample.px_zero Sample.py_zero
               Sample.positions_enter Sample.betas None) 1
  = Some F64.zero
  /\ nth_error (daily_return_net Sample.px_zero Sample.py_zero
                  Sample.positions_enter Sample.betas Sample.f0_001 None) 1
     = Some F64.zero.
Proof.
  split.
  - refine (proj1 (proj1
              (returns_zero_without_capital Sample.px_zero Sample.py_zero
                 Sample.positions_enter Sample.betas Sample.f0_001 None)
              0 F64.zero _ _ _)).
    all: vm_compute; try reflexivity; lia.
  - refine (proj2 (proj1
              (returns_zero_without_capital Sample.px_zero Sample.py_zero
                 Sample.positions_enter Sample.betas Sample.f0_001 None)
              0 F64.zero _ _ _)).
    all: vm_compute; try reflexivity; lia.
Defined.

(** C8: the annualised Sharpe ratio that [calculate_returns] reports is
    [mean / std * sqrt(252)] of the period returns whenever their standard
    deviation is greater than zero, and exactly zero when that standard
    deviation is zero; gross and net alike. *)
Theorem sharpe_ratio_annualised :
  forall (series_mean series_std : list float -> float)
         (px py : list float) (positions : list Z) (betas : list float)
         (tc : float) (alphas : option (list float)),
    let r := calculate_returns series_mean series_std px py positions betas
               tc alphas in
    (F64.gtb (series_std (r_daily_return r)) F64.zero = true ->
     r_sharpe r
     = F64.mul (F64.div (series_mean (r_daily_return r))
                        (series_std (r_daily_return r)))
               (F64.sqrt (F64.of_Z 252)))
    /\ (F64.is_zero (series_std (r_daily_return r)) = true ->
        r_sharpe r = F64.zero)
    /\ (F64.gtb (series_std (r_daily_return_net r)) F64.zero = true ->
        r_sharpe_net r
        = F64.mul (F64.div (series_mean (r_daily_return_net r))
                           (series_std (r_daily_return_net r)))
                  (F64.sqrt (F64.of_Z 252)))
    /\ (F64.is_zero (series_std (r_daily_return_net r)) = true ->
        r_sharpe_net r = F64.zero).
Proof.
  intros series_mean series_std px py positions betas tc alphas r.
  subst r. cbn [calculate_returns r_daily_return r_daily_return_net
                r_sharpe r_sharpe_net].
  unfold sharpe, sharpe_net, sharpe_of, sqrt_252.
  repeat split; intros H.
  - now rewrite H.
  - now rewrite (F64Facts.zero_not_positive _ H).
  - now rewrite H.
  - now rewrite (F64Facts.zero_not_positive _ H).
Qed.

(** With a deviation of one the ratio is the mean times [sqrt(252)]; with a
    deviation of zero it is zero. *)
Lemma sharpe_ratio_annualised_witness :
  r_sharpe_net (calculate_returns Sample.mean_seq Sample.std_one
                  Sample.px Sample.py Sample.positions_enter Sample.betas
                  Sample.f0_001 None)
  = F64.mul (F64.div
               (Sample.mean_seq
                  (daily_return_net Sample.px Sample.py Sample.positions_enter
                     Sample.betas Sample.f0_001 None))
               F64.one)
            (F64.sqrt (F64.of_Z 252))
  /\ r_sharpe (calculate_returns Sample.mean_seq Sample.std_zero
                 Sample.px Sample.py Sample.positions_enter Sample.betas
                 Sample.f0_001 None)
     = F64.zero.
Proof.
  split.
  - refine (proj1 (proj2 (proj2
              (sharpe_ratio_annualised Sample.mean_seq Sample.std_one
                 Sample.px Sample.py Sample.positions_enter Sample.betas
                 Sample.f0_001 None))) _).
    reflexivity.
  - refine (proj1 (proj2
              (sharpe_ratio_annualised Sample.mean_seq Sample.std_zero
                 Sample.px Sample.py Sample.positions_enter Sample.betas
                 Sample.f0_001 None)) _).
    reflexivity.
Defined.

(** C10: the positions that [generate_positions] returns never pass from
    Long to Short or from Short to Long in one step: consecutive positions
    differ by at most one, and the turnover column that [calculate_returns]
    derives from them holds only 0.0 and 1.0, never 2.0. *)
Theorem generate_positions_never_reverses :
  forall (label : Type) (zscore : Series label float)
         (entryThreshold exitThreshold stopZ : float),
  exists ps : Series label Z,
    generate_positions zscore entryThreshold exitThreshold stopZ = Returned ps
    /\ (forall t : nat,
           S t < length ps ->
           (Z.abs (nth (S t) (values ps) 0 - nth t (values ps) 0) <= 1)%Z)
    /\ Forall (fun u => u = F64.zero \/ u = F64.one)
         (units_traded (values ps))
    /\ ~ In F64.two (units_traded (values ps)).
Proof.
  intros label zscore e x s.
  eexists. split; [apply generate_positions_machine|].
  rewrite generate_positions_values.
  assert (Hlen : length (combine (index zscore)
                           (machine_positions e x s (values zscore)))
                 = length (values zscore)).
  { rewrite length_combine, machine_positions_length, index_length,
      values_length. apply Nat.min_id. }
  assert (Hunits : Forall (fun u => u = F64.zero \/ u = F64.one)
                     (units_traded (machine_positions e x s (values zscore)))).
  { apply Forall_nth. intros i d Hi.
    rewrite units_traded_length, machine_positions_length in Hi.
    rewrite (nth_indep _ d F64.zero)
      by now rewrite units_traded_length, machine_positions_length.
    destruct i as [|i].
    - left. apply units_traded_nth_0.
    - rewrite units_traded_nth_S by now rewrite machine_positions_length.
      pose proof (machine_positions_range e x s (values zscore)) as Hr.
      rewrite Forall_nth in Hr.
      apply turnover_of_adjacent.
      + apply Hr. rewrite machine_positions_length. lia.
      + apply Hr. now rewrite machine_positions_length.
      + now apply machine_positions_adjacent. }
  split; [|split].
  - intros t Ht. apply machine_positions_adjacent. now rewrite <- Hlen.
  - exact Hunits.
  - intros Hin. rewrite Forall_forall in Hunits.
    destruct (Hunits _ Hin); discriminate.
Qed.

(** ** [fit_rolling_params] *)

(** The column a run of estimates adds to each of the five lists. *)
Lemma fit_append_rows (rows : list RollingEstimate) :
  forall acc,
    fold_left fit_append rows acc
    = mkFit (f_alphas acc ++ map e_alpha rows)
            (f_betas acc ++ map e_beta rows)
            (f_means acc ++ map e_spreadMean rows)
            (f_stds acc ++ map e_spreadStd rows)
            (f_pvals acc ++ map e_cointPValue rows).
Proof.
  induction rows as [|r rows IH]; intros acc; cbn [fold_left map].
  - rewrite !app_nil_r. now destruct acc.
  - rewrite IH. cbn [fit_append f_alphas f_betas f_means f_stds f_pvals].
    now rewrite <- !app_assoc.
Qed.

(** The rows of a slice are rows of the Series strictly before its stop. *)
Lemma iloc_slice_rows {A : Type} (s : list A) (w i k : nat) (row : A) :
  w <= i ->
  nth_error (iloc_slice s (i - w) i) k = Some row ->
  i - w + k < i /\ nth_error s (i - w + k) = Some row.
Proof.
  intros Hw. unfold iloc_slice.
  rewrite nth_error_firstn, nth_error_skipn.
  destruct (Nat.ltb_spec k (i - (i - w))) as [Hk|Hk]; [|discriminate].
  intros H. split; [lia|exact H].
Qed.

Section FitRollingParamsFacts.

Variable label : Type.
Variable OLS_params :
  Series label float -> Series label float -> outcome (float * float).
Variable coint : Series label float -> Series label float -> outcome float.
Variables series_mean series_std : list float -> float.
Variables px py : Series label float.
Variable window : nat.

Local Abbreviation estimate :=
  (window_estimate OLS_params coint series_mean series_std).
Local Abbreviation X := (window_X px window).
Local Abbreviation Y := (window_Y py window).
Local Abbreviation row :=
  (estimate_at OLS_params coint series_mean series_std px py window).
Local Abbreviation loop :=
  (fit_loop OLS_params coint series_mean series_std px py window).

(** One iteration appends the estimate of its window. *)
Lemma fit_body_estimate (acc : fit_lists) (i : nat) :
  fit_body OLS_params coint series_mean series_std px py window acc i
  = r <- estimate (X i) (Y i) ;; Returned (fit_append acc r).
Proof.
  unfold fit_body, window_estimate.
  destruct (OLS_params (X i) (Y i)) as [[a b]|e]; reflexivity.
Qed.

(** The estimate exists wherever the regression returns. *)
Lemma estimate_returns (i : nat) :
  ~ fails (OLS_params (X i) (Y i)) ->
  estimate (X i) (Y i) = Returned (row i).
Proof.
  intros H. unfold estimate_at, window_estimate.
  destruct (OLS_params (X i) (Y i)) as [[a b]|e]; [reflexivity|].
  exfalso. apply H. now exists e.
Qed.

Lemma fit_loop_returns (range : list nat) :
  forall acc,
    (forall i, In i range -> ~ fails (OLS_params (X i) (Y i))) ->
    loop range acc = Returned (fold_left fit_append (map row range) acc).
Proof.
  induction range as [|i range IH]; intros acc H; [reflexivity|].
  cbn [fit_loop map fold_left].
  rewrite fit_body_estimate, estimate_returns by (apply H; now left).
  cbn [bind]. apply IH. intros j Hj. apply H. now right.
Qed.


Lemma skipn_index_length :
  length (skipn window (index px)) = length px - window.
Proof. now rewrite length_skipn, index_length. Qed.

Lemma fit_rolling_params_returns :
  (forall i, window <= i < length px -> ~ fails (OLS_params (X i) (Y i))) ->
  fit_rolling_params OLS_params coint series_mean series_std px py window
  = Returned (fit_result px window
                (map row (seq window (length px - window)))).
Proof.
  intros H. unfold fit_rolling_params.
  rewrite fit_loop_returns.
  2:{ intros i Hi. apply H. apply in_seq in Hi. lia. }
  cbn [bind]. rewrite fit_append_rows.
  cbn [fit_empty f_alphas f_betas f_means f_stds f_pvals app].
  rewrite !pd_Series_returns
    by now rewrite skipn_index_length, !length_map, length_seq.
  reflexivity.
Qed.



(** A column of the result: its shape, and its entry at timestamp [i]. *)
Lemma fit_column_shape (g : RollingEstimate -> float) :
  let s := combine (skipn window (index px))
             (map g (map row (seq window (length px - window)))) in
  length s = length px - window
  /\ index s = skipn window (index px)
  /\ hd_error (index s) = nth_error (index px) window
  /\ (length px <= window -> s = []).
Proof.
  intros s.
  assert (Hlen : length (map g (map row (seq window (length px - window))))
                 = length (skipn window (index px))).
  { now rewrite skipn_index_length, !length_map, length_seq. }
  assert (Hidx : index s = skipn window (index px)).
  { now apply index_combine. }
  repeat split.
  - subst s. rewrite length_combine, Hlen, Nat.min_id.
    apply skipn_index_length.
  - exact Hidx.
  - rewrite Hidx. apply hd_error_skipn.
  - intros H. subst s.
    now rewrite skipn_all2 by (rewrite index_length; exact H).
Qed.

Lemma fit_column_nth (g : RollingEstimate -> float) (i : nat) :
  window <= i < length px ->
  nth_error
    (values (combine (skipn window (index px))
               (map g (map row (seq window (length px - window))))))
    (i - window)
  = Some (g (row i)).
Proof.
  intros Hi.
  rewrite values_combine
    by now rewrite skipn_index_length, !length_map, length_seq.
  rewrite !nth_error_map, nth_error_seq.
  destruct (Nat.ltb_spec (i - window) (length px - window)); [|lia].
  cbn [option_map].
  now replace (window + (i - window)) with i by lia.
Qed.

End FitRollingParamsFacts.



(** C3, as stated, fails: with an exit threshold (2.5) above the entry
    threshold (2.0) [generate_positions] returns a position Series, and with
    a window (5) beyond the length of the prices (2) [fit_rolling_params]
    returns five empty Series, the regression never being called; neither
    call raises. *)
Lemma preconditions_not_validated :
  (F64.leb Sample.f2_0 Sample.f2_5 = true
   /\ generate_positions Sample.zscore Sample.f2_0 Sample.f2_5 stop_z_default
      = Returned [(0, 0%Z); (1, (-1)%Z); (2, (-1)%Z); (3, 0%Z); (4, 0%Z)]
   /\ ~ fails (generate_positions Sample.zscore Sample.f2_0 Sample.f2_5
                 stop_z_default))
  /\ (length Sample.prices <= 5
      /\ fit_rolling_params Sample.ols_failing Sample.coint_failing
           Sample.mean_seq Sample.std_one Sample.prices Sample.hedges 5
         = Returned ([], [], [], [], [])
      /\ ~ fails (fit_rolling_params Sample.ols_failing Sample.coint_failing
                    Sample.mean_seq Sample.std_one Sample.prices
                    Sample.hedges 5)).
Proof.
  split; (split; [vm_compute; try reflexivity; lia|]);
    (split; [vm_compute; reflexivity|]);
    intros [e He]; vm_compute in He; discriminate He.
Qed.

(** C3, amended: the operations validate nothing.  With an exit threshold
    at or above the entry threshold, [generate_positions] returns the
    positions of the state machine run with those thresholds; with a window
    at or beyond the length of the prices, [fit_rolling_params] returns five
    empty Series. *)
Theorem no_precondition_validation :
  (forall (label : Type) (zscore : Series label float)
          (entryThreshold exitThreshold stopZ : float),
      F64.leb entryThreshold exitThreshold = true ->
      generate_positions zscore entryThreshold exitThreshold stopZ
      = Returned (combine (index zscore)
                    (machine_positions entryThreshold exitThreshold stopZ
                       (values zscore))))
  /\ (forall (label : Type)
             (OLS_params :
                Series label float -> Series label float
                -> outcome (float * float))
             (coint : Series label float -> Series label float -> outcome float)
             (series_mean series_std : list float -> float)
             (px py : Series label float) (w : nat),
         length px <= w ->
         fit_rolling_params OLS_params coint series_mean series_std px py w
         = Returned ([], [], [], [], [])).
Proof.
  split.
  - intros label zscore e x s _. apply generate_positions_machine.
  - intros label OLS_params coint series_mean series_std px py w H.
    unfold fit_rolling_params.
    replace (length px - w) with 0 by lia.
    cbn [seq fit_loop bind fit_empty f_alphas f_betas f_means f_stds f_pvals].
    rewrite skipn_all2 by (rewrite index_length; exact H).
    reflexivity.
Qed.

(** Both halves at the inputs above. *)
Lemma no_precondition_validation_witness :
  generate_positions Sample.zscore Sample.f2_0 Sample.f2_5 stop_z_default
  = Returned (combine (index Sample.zscore)
                (machine_positions Sample.f2_0 Sample.f2_5 stop_z_default
                   (values Sample.zscore)))
  /\ fit_rolling_params Sample.ols_failing Sample.coint_failing
       Sample.mean_seq Sample.std_one Sample.prices Sample.hedges 5
     = Returned ([], [], [], [], []).
Proof.
  split.
  - refine (proj1 no_precondition_validation nat Sample.zscore Sample.f2_0
              Sample.f2_5 stop_z_default _).
    reflexivity.
  - refine (proj2 no_precondition_validation nat Sample.ols_failing
              Sample.coint_failing Sample.mean_seq Sample.std_one
              Sample.prices Sample.hedges 5 _).
    cbn. lia.
Defined.

(** * Further properties *)

(** ** [generate_positions]: how the positions follow the z-score *)

Section PositionRules.

Variable label : Type.
Variables entry exit stop : float.

(** The position at step [t] is the machine's step from the state whose
    value is the previous position. *)
Lemma machine_positions_step (zs : list float) (t : nat) (z : float) :
  nth_error zs t = Some z ->
  exists s : State,
    position_value s
    = previous_position (machine_positions entry exit stop zs) t
    /\ nth_error (machine_positions entry exit stop zs) t
       = Some (position_value (next_state entry exit stop s z)).
Proof.
  intros Hz.
  assert (Ht : t < length zs) by (apply nth_error_Some; congruence).
  pose proof (nth_error_nth _ _ F64.nan Hz) as Ez.
  unfold machine_positions.
  rewrite nth_error_map,
    (nth_error_inside (machine_trace entry exit stop Flat zs) Flat)
    by now rewrite machine_trace_length.
  cbn [option_map].
  destruct t as [|t].
  - exists Flat. split; [reflexivity|].
    destruct zs as [|z0 zs]; [discriminate|].
    cbn in Hz. injection Hz as ->. reflexivity.
  - exists (nth t (machine_trace entry exit stop Flat zs) Flat). split.
    + cbn [previous_position]. change 0%Z with (position_value Flat).
      now rewrite map_nth.
    + now rewrite machine_trace_step, Ez by exact Ht.
Qed.

Lemma position_value_injective (s1 s2 : State) :
  position_value s1 = position_value s2 -> s1 = s2.
Proof. destruct s1, s2; cbn; intros H; try reflexivity; discriminate. Qed.

End PositionRules.

(** X1: a trade is closed as soon as the z-score is back inside the exit
    band: whenever the previous position is not 0 and [abs(z[t])] is below
    the exit threshold, the position at [t] is 0, whatever the stop level. *)
Theorem exit_takes_precedence :
  forall (label : Type) (zscore : Series label float)
         (entry exit stop : float),
  exists ps : Series label Z,
    generate_positions zscore entry exit stop = Returned ps
    /\ forall (t : nat) (z : float),
         nth_error (values zscore) t = Some z ->
         previous_position (values ps) t <> 0%Z ->
         F64.ltb (F64.abs z) exit = true ->
         nth_error (values ps) t = Some 0%Z.
Proof.
  intros label zscore entry exit stop.
  eexists. split; [apply generate_positions_machine|].
  rewrite generate_positions_values.
  intros t z Hz Hprev Hexit.
  destruct (machine_positions_step entry exit stop _ _ Hz) as (s & Hs & Hn).
  rewrite Hn. rewrite <- Hs in Hprev.
  destruct s; cbn in Hprev |- *; [congruence| |]; now rewrite Hexit.
Qed.

(** X2: a trade is opened only from Flat and against the z-score: when the
    previous position is 0, a z-score above the entry threshold gives -1, a
    z-score below its negation (and not above it) gives +1, and any other
    z-score, NaN included, leaves the position at 0. *)
Theorem entry_from_flat :
  forall (label : Type) (zscore : Series label float)
         (entry exit stop : float),
  exists ps : Series label Z,
    generate_positions zscore entry exit stop = Returned ps
    /\ forall (t : nat) (z : float),
         nth_error (values zscore) t = Some z ->
         previous_position (values ps) t = 0%Z ->
         nth_error (values ps) t
         = Some (if F64.gtb z entry then (-1)%Z
                 else if F64.ltb z (F64.opp entry) then 1%Z
                 else 0%Z).
Proof.
  intros label zscore entry exit stop.
  eexists. split; [apply generate_positions_machine|].
  rewrite generate_positions_values.
  intros t z Hz Hprev.
  destruct (machine_positions_step entry exit stop _ _ Hz) as (s & Hs & Hn).
  rewrite Hn. rewrite <- Hs in Hprev.
  destruct s; cbn in Hprev; try discriminate.
  cbn [next_state].
  destruct (F64.gtb z entry); [reflexivity|].
  destruct (F64.ltb z (F64.opp entry)); reflexivity.
Qed.

(** X3: without an entry signal there is no trade: if no z-score is above
    the entry threshold or below its negation, every position is 0. *)
Theorem no_signal_stays_flat :
  forall (label : Type) (zscore : Series label float)
         (entry exit stop : float),
    (forall z, In z (values zscore) ->
               F64.gtb z entry = false
               /\ F64.ltb z (F64.opp entry) = false) ->
    generate_positions zscore entry exit stop
    = Returned (map (fun row => (fst row, 0%Z)) zscore).
Proof.
  intros label zscore entry exit stop H.
  rewrite generate_positions_machine. f_equal.
  unfold machine_positions, index, values in *.
  induction zscore as [|[l z] zscore IH]; [reflexivity|].
  cbn [map fst snd machine_trace next_state combine] in *.
  destruct (H z (or_introl eq_refl)) as [-> ->].
  cbn [position_value]. f_equal.
  apply IH. intros z' Hz'. apply H. now right.
Qed.

(** The specification's thresholds on z-scores that stay within [-2, 2]. *)
Lemma no_signal_stays_flat_witness :
  generate_positions
    [(0, F64.zero); (1, Sample.f0_5); (2, F64.nan); (3, Sample.f2_0)]
    Sample.f2_0 Sample.f0_5 stop_z_default
  = Returned [(0, 0%Z); (1, 0%Z); (2, 0%Z); (3, 0%Z)].
Proof.
  apply (no_signal_stays_flat
           [(0, F64.zero); (1, Sample.f0_5); (2, F64.nan); (3, Sample.f2_0)]
           Sample.f2_0 Sample.f0_5 stop_z_default).
  intros z [<-|[<-|[<-|[<-|[]]]]]; split; reflexivity.
Defined.

(** X4: the last position is all the function remembers: after two
    histories that end in the same position, the same further z-scores give
    the same further positions. *)
Theorem last_position_is_the_memory :
  forall (label : Type) (a b c : Series label float)
         (entry exit stop : float),
  exists pa pb qa qb : Series label Z,
    generate_positions a entry exit stop = Returned pa
    /\ generate_positions b entry exit stop = Returned pb
    /\ generate_positions (a ++ c) entry exit stop = Returned (pa ++ qa)
    /\ generate_positions (b ++ c) entry exit stop = Returned (pb ++ qb)
    /\ (last (values pa) 0%Z = last (values pb) 0%Z -> qa = qb).
Proof.
  intros label a b c entry exit stop.
  pose (tail := fun h : Series label float =>
          combine (index c)
            (map position_value
               (machine_trace entry exit stop
                  (machine_final entry exit stop Flat (values h))
                  (values c)))).
  exists (combine (index a) (machine_positions entry exit stop (values a))).
  exists (combine (index b) (machine_positions entry exit stop (values b))).
  exists (tail a), (tail b).
  assert (Happ : forall h,
             combine (index (h ++ c))
               (machine_positions entry exit stop (values (h ++ c)))
             = combine (index h) (machine_positions entry exit stop (values h))
               ++ tail h).
  { intros h. unfold index, values, tail. rewrite !map_app.
    rewrite machine_positions_app. apply combine_app_aligned.
    now rewrite machine_positions_length, !length_map. }
  rewrite !generate_positions_machine, !Happ, !generate_positions_values.
  repeat split.
  unfold machine_positions. change 0%Z with (position_value Flat).
  rewrite !last_map_default, !machine_trace_last.
  intros H. apply position_value_injective in H.
  unfold tail. now rewrite H.
Qed.

(** ** Mirror symmetry of the position machine *)

Lemma SFcompare_opp (a b : float) :
  SFcompare (F64.opp a) (F64.opp b) = SFcompare b a.
Proof.
  destruct a as [sa|sa| |sa ma ea], b as [sb|sb| |sb mb eb];
    try reflexivity;
    try (destruct sa; reflexivity);
    try (destruct sb; reflexivity);
    try (destruct sa, sb; reflexivity).
  destruct sa, sb; cbn; try reflexivity.
  - rewrite (Z.compare_antisym ea eb).
    destruct (ea ?= eb)%Z; cbn; try reflexivity.
    now rewrite Pos.compare_cont_antisym.
  - rewrite (Z.compare_antisym ea eb).
    destruct (ea ?= eb)%Z; cbn; try reflexivity.
    now rewrite Pos.compare_cont_antisym.
Qed.

Lemma opp_involutive (x : float) : F64.opp (F64.opp x) = x.
Proof. destruct x as [s|s| |s m e]; cbn; now rewrite ?negb_involutive. Qed.

Lemma abs_opp (x : float) : F64.abs (F64.opp x) = F64.abs x.
Proof. now destruct x. Qed.

(** [-a < -b] is [b < a]; [a < -b] is [b < -a]. *)
Lemma ltb_opp_opp (a b : float) :
  F64.ltb (F64.opp a) (F64.opp b) = F64.ltb b a.
Proof. unfold F64.ltb, SFltb. now rewrite SFcompare_opp. Qed.

Lemma ltb_opp_swap (a b : float) :
  F64.ltb a (F64.opp b) = F64.ltb b (F64.opp a).
Proof. now rewrite <- (opp_involutive a) at 1; rewrite ltb_opp_opp. Qed.

(** Above a positive threshold is not below its negation. *)
Lemma above_positive_not_below (e z : float) :
  F64.ltb F64.zero e = true -> F64.gtb z e = true ->
  F64.ltb z (F64.opp e) = false.
Proof.
  unfold F64.gtb, F64.ltb, SFltb.
  destruct e as [se|se| |se me ee]; cbn; try discriminate;
    destruct se; try discriminate; intros _;
    destruct z as [sz|sz| |sz mz ez]; cbn; try discriminate;
    destruct sz; try discriminate; reflexivity.
Qed.

Section Mirror.

Variables entry exit stop : float.
Hypothesis entry_positive : F64.ltb F64.zero entry = true.

Lemma next_state_mirror (s : State) (z : float) :
  next_state entry exit stop (mirror s) (F64.opp z)
  = mirror (next_state entry exit stop s z).
Proof.
  destruct s; cbn [mirror next_state]; unfold F64.gtb;
    change SFltb with F64.ltb;
    rewrite ?abs_opp, ?ltb_opp_opp, <- ?(ltb_opp_swap z).
  - destruct (F64.ltb entry z) eqn:Ha.
    + now rewrite (@above_positive_not_below entry z entry_positive Ha).
    + now destruct (F64.ltb z (F64.opp entry)).
  - destruct (F64.ltb (F64.abs z) exit); [reflexivity|].
    now destruct (F64.ltb z (F64.opp stop)).
  - destruct (F64.ltb (F64.abs z) exit); [reflexivity|].
    now destruct (F64.ltb stop z).
Qed.

Lemma machine_trace_mirror (zs : list float) :
  forall s,
    machine_trace entry exit stop (mirror s) (map F64.opp zs)
    = map mirror (machine_trace entry exit stop s zs).
Proof.
  induction zs as [|z zs IH]; intros s; [reflexivity|].
  cbn [map machine_trace]. rewrite next_state_mirror. f_equal. apply IH.
Qed.

End Mirror.

Lemma position_value_mirror (s : State) :
  position_value (mirror s) = Z.opp (position_value s).
Proof. now destruct s. Qed.

(** X5: for a positive entry threshold the strategy is symmetric: negating
    every z-score negates every position. *)
Theorem negated_zscore_negates_positions :
  forall (label : Type) (zscore : Series label float)
         (entry exit stop : float),
    F64.ltb F64.zero entry = true ->
    exists ps : Series label Z,
      generate_positions zscore entry exit stop = Returned ps
      /\ generate_positions (negate_zscore zscore) entry exit stop
         = Returned (negate_positions ps).
Proof.
  intros label zscore entry exit stop Hpos.
  eexists. split; [apply generate_positions_machine|].
  rewrite generate_positions_machine. f_equal.
  unfold machine_positions, negate_zscore, negate_positions, index, values.
  rewrite !map_map. cbn [fst snd].
  rewrite <- (map_map snd F64.opp).
  change Flat with (mirror Flat) at 1.
  rewrite machine_trace_mirror by exact Hpos. rewrite map_map.
  generalize (machine_trace entry exit stop Flat (map snd zscore)).
  induction zscore as [|[l z] zscore IH]; intros [|s tr]; try reflexivity.
  cbn [map combine fst snd]. rewrite position_value_mirror. f_equal. apply IH.
Qed.

(** The scenario of the specification, negated: [0, 1, 1, 0, 0]. *)
Lemma negated_zscore_negates_positions_witness :
  exists ps : Series nat Z,
    generate_positions Sample.zscore Sample.f2_0 Sample.f0_5 stop_z_default
    = Returned ps
    /\ generate_positions (negate_zscore Sample.zscore) Sample.f2_0
         Sample.f0_5 stop_z_default
       = Returned (negate_positions ps).
Proof.
  apply (negated_zscore_negates_positions Sample.zscore Sample.f2_0
           Sample.f0_5 stop_z_default).
  reflexivity.
Defined.

(** X6: the loop variables carry no more than the last position: after any
    run of the loop from its initial state, [in_trade] is the last position
    appended (0 when none was), [entry_side] equals [in_trade], and one
    position was appended for each z-score. *)
Theorem loop_variables_track_last_position :
  forall (entry exit stop : float) (zs : list float),
    let st := run_loop entry exit stop zs loop_init in
    in_trade st = last (positions st) 0%Z
    /\ entry_side st = in_trade st
    /\ length (positions st) = length zs.
Proof.
  intros entry exit stop zs st. subst st.
  change loop_init with (loop_at [] Flat).
  rewrite run_loop_trace.
  cbn [loop_at in_trade entry_side positions app].
  change 0%Z with (position_value Flat).
  rewrite last_map_default, machine_trace_last, length_map,
    machine_trace_length.
  repeat split.
Qed.

(** ** [calculate_returns]: what every period satisfies *)

Lemma series_op_Forall (f : float -> float -> float)
    (A B C : float -> Prop) (xs : list float) :
  A F64.nan -> B F64.nan ->
  (forall a b, A a -> B b -> C (f a b)) ->
  forall ys, Forall A xs -> Forall B ys -> Forall C (series_op f xs ys).
Proof.
  intros HA HB Hf.
  induction xs as [|x xs IH]; intros [|y ys] Hx Hy; cbn [series_op].
  - constructor.
  - apply Forall_map. revert Hy. apply Forall_impl. intros b Hb. now apply Hf.
  - apply Forall_map. revert Hx. apply Forall_impl. intros a Ha. now apply Hf.
  - inversion Hx; inversion Hy; subst. constructor; [now apply Hf|now apply IH].
Qed.

Lemma Forall_removelast {A : Type} (P : A -> Prop) (l : list A) :
  Forall P l -> Forall P (removelast l).
Proof.
  induction l as [|x l IH]; intros H; [constructor|].
  inversion H; subst. destruct l as [|y l]; [constructor|].
  change (removelast (x :: y :: l)) with (x :: removelast (y :: l)).
  constructor; [assumption|now apply IH].
Qed.

Lemma shift1_Forall (P : float -> Prop) (xs : list float) :
  P F64.nan -> Forall P xs -> Forall P (shift1 xs).
Proof.
  intros Hn H. destruct xs as [|x xs]; [constructor|].
  unfold shift1. constructor; [exact Hn|now apply Forall_removelast].
Qed.

Module ZeroOrNaN.

Lemma zn_mul_l (a b : float) :
  zero_or_nan a = true -> zero_or_nan (F64.mul a b) = true.
Proof. destruct a; try discriminate; intros _; now destruct b. Qed.

Lemma zn_mul_r (a b : float) :
  zero_or_nan b = true -> zero_or_nan (F64.mul a b) = true.
Proof. destruct b; try discriminate; intros _; now destruct a. Qed.

Lemma zn_div_l (a b : float) :
  zero_or_nan a = true -> zero_or_nan (F64.div a b) = true.
Proof. destruct a; try discriminate; intros _; now destruct b. Qed.

Lemma zn_sub (a b : float) :
  zero_or_nan a = true -> zero_or_nan b = true ->
  zero_or_nan (F64.sub a b) = true.
Proof.
  destruct a as [sa| | |]; try discriminate; intros _;
    destruct b as [sb| | |]; try discriminate; intros _; try reflexivity.
  now destruct sa, sb.
Qed.

Lemma zn_abs (a : float) :
  zero_or_nan a = true -> zero_or_nan (F64.abs a) = true.
Proof. now destruct a. Qed.

Lemma zn_fill0_is_zero (a : float) :
  zero_or_nan a = true -> F64.is_zero (fill0 a) = true.
Proof. now destruct a. Qed.

Lemma zn_noinf0 (a : float) :
  zero_or_nan a = true -> zero_or_nan (noinf0 a) = true.
Proof. now destruct a. Qed.

Lemma zn_of_zero (a : float) : F64.is_zero a = true -> zero_or_nan a = true.
Proof. now destruct a. Qed.

End ZeroOrNaN.

Lemma div_nan_r (x : float) : F64.div x F64.nan = F64.nan.
Proof. now destruct x. Qed.

Lemma fill0_noinf0_finite (q : float) :
  F64.is_finite (fill0 (noinf0 q)) = true.
Proof. now destruct q. Qed.

Lemma gross_notional_length_ge (px py betas_in : list float) :
  length px <= length (gross_notional px py betas_in).
Proof.
  unfold gross_notional. rewrite series_op_length, length_map. lia.
Qed.

(** X7: a return is never NaN and never infinite: every entry of the gross
    and of the net return column is a finite number, whatever the prices,
    positions, hedge ratios and cost rate are. *)
Theorem returns_are_finite :
  forall (px py : list float) (positions : list Z) (betas : list float)
         (tc : float) (alphas : option (list float)),
    Forall (fun r => F64.is_finite r = true)
      (daily_return px py positions betas alphas)
    /\ Forall (fun r => F64.is_finite r = true)
         (daily_return_net px py positions betas tc alphas).
Proof.
  intros. unfold daily_return, daily_return_net, fillna0, replace_inf0.
  split; rewrite map_map; apply Forall_map, Forall_forall;
    intros q _; apply fill0_noinf0_finite.
Qed.

(** X8: the first period never earns a return: with at least one price, the
    gross and the net return of period 0 are exactly 0.0, as no capital was
    at risk the period before. *)
Theorem first_period_return_is_zero :
  forall (px py : list float) (positions : list Z) (betas : list float)
         (tc : float) (alphas : option (list float)),
    0 < length px ->
    nth_error (daily_return px py positions betas alphas) 0 = Some F64.zero
    /\ nth_error (daily_return_net px py positions betas tc alphas) 0
       = Some F64.zero.
Proof.
  intros px py positions betas tc alphas Hx.
  pose proof (gross_notional_length_ge px py betas) as Hg.
  assert (Hq : forall pnl,
             nth_error (series_op F64.div pnl (capital_shift px py betas)) 0
             = Some F64.nan).
  { intros pnl.
    rewrite (nth_error_inside _ F64.nan)
      by (rewrite series_op_length, capital_shift_length; lia).
    rewrite series_op_nth by (rewrite capital_shift_length; lia).
    unfold capital_shift. now rewrite shift1_nth_0, div_nan_r. }
  unfold daily_return, daily_return_net.
  split; now rewrite (return_of_quotient _ _ _ _ _ (Hq _)).
Qed.

Lemma first_period_return_is_zero_witness :
  nth_error (daily_return Scenario.px3 Scenario.py3 Scenario.positions_hold
               Scenario.betas3 None) 0
  = Some F64.zero.
Proof.
  refine (proj1 (first_period_return_is_zero Scenario.px3 Scenario.py3
                   Scenario.positions_hold Scenario.betas3 Sample.f0_001
                   None _)).
  cbn. lia.
Defined.

(** X9: staying out of the market earns and costs nothing: when every
    position is 0, every gross and every net return is a zero, whatever the
    prices do (non-finite prices included). *)
Theorem flat_positions_give_zero_returns :
  forall (px py : list float) (positions : list Z) (betas : list float)
         (tc : float) (alphas : option (list float)),
    Forall (fun p => p = 0%Z) positions ->
    Forall (fun r => F64.is_zero r = true)
      (daily_return px py positions betas alphas)
    /\ Forall (fun r => F64.is_zero r = true)
         (daily_return_net px py positions betas tc alphas).
Proof.
  intros px py positions betas tc alphas Hflat.
  set (ZN := fun x : float => zero_or_nan x = true).
  set (Any := fun _ : float => True).
  assert (Hany : forall l : list float, Forall Any l).
  { intros l. apply Forall_forall. now intros. }
  assert (Hf : Forall ZN (positions_f positions)).
  { unfold positions_f. apply Forall_map. revert Hflat.
    apply Forall_impl. now intros p ->. }
  assert (Hlag : Forall ZN (pos_lag positions)).
  { unfold pos_lag, fillna0. apply Forall_map.
    apply shift1_Forall with (P := ZN) in Hf; [|reflexivity].
    revert Hf. apply Forall_impl. intros a Ha.
    apply ZeroOrNaN.zn_of_zero, ZeroOrNaN.zn_fill0_is_zero, Ha. }
  assert (Hpnl : Forall ZN (strategy_pnl px py positions betas alphas)).
  { unfold strategy_pnl.
    apply (@series_op_Forall F64.mul ZN Any ZN);
      [reflexivity|exact I| |exact Hlag|apply Hany].
    intros a b Ha _. now apply ZeroOrNaN.zn_mul_l. }
  assert (Hunits : Forall ZN (units_traded positions)).
  { unfold units_traded, fillna0. rewrite map_map. apply Forall_map.
    assert (Hd : Forall ZN (diff_int64 positions)).
    { destruct positions as [|p rest]; [constructor|].
      cbn [diff_int64]. constructor; [reflexivity|].
      apply Forall_map, Forall_forall. intros [a b] Hin.
      rewrite Forall_forall in Hflat.
      rewrite (Hflat a (in_combine_l _ _ _ _ Hin)).
      rewrite (Hflat b (or_intror (in_combine_r _ _ _ _ Hin))).
      reflexivity. }
    revert Hd. apply Forall_impl. intros a Ha.
    apply ZeroOrNaN.zn_of_zero, ZeroOrNaN.zn_fill0_is_zero, ZeroOrNaN.zn_abs, Ha. }
  assert (Hnet : Forall ZN (strategy_pnl_net px py positions betas tc alphas)).
  { unfold strategy_pnl_net, daily_costs.
    apply (@series_op_Forall F64.sub ZN ZN ZN);
      [reflexivity|reflexivity| |exact Hpnl|].
    - intros a b. apply ZeroOrNaN.zn_sub.
    - apply (@series_op_Forall F64.mul Any ZN ZN);
        [exact I|reflexivity| |apply Hany|exact Hunits].
      intros a b _ Hb. now apply ZeroOrNaN.zn_mul_r. }
  assert (Hret : forall pnl,
             Forall ZN pnl ->
             Forall (fun r => F64.is_zero r = true)
               (fillna0 (replace_inf0
                  (series_op F64.div pnl (capital_shift px py betas))))).
  { intros pnl Hp. unfold fillna0, replace_inf0. rewrite map_map.
    apply Forall_map.
    assert (Hq : Forall ZN (series_op F64.div pnl (capital_shift px py betas))).
    { apply (@series_op_Forall F64.div ZN Any ZN);
        [reflexivity|exact I| |exact Hp|apply Hany].
      intros a b Ha _. now apply ZeroOrNaN.zn_div_l. }
    revert Hq. apply Forall_impl. intros q Hq.
    apply ZeroOrNaN.zn_fill0_is_zero, ZeroOrNaN.zn_noinf0, Hq. }
  split; now apply Hret.
Qed.

Lemma flat_positions_give_zero_returns_witness :
  Forall (fun r => F64.is_zero r = true)
    (daily_return_net Scenario.px3 Scenario.py3 Scenario.positions_flat
       Scenario.betas3 Sample.f0_001 None).
Proof.
  refine (proj2 (flat_positions_give_zero_returns Scenario.px3 Scenario.py3
                   Scenario.betas3 Sample.f0_001 None
                   (positions := Scenario.positions_flat) _)).
  repeat constructor.
Defined.

Lemma reindex_length (xs : list float) (n : nat) : length (reindex xs n) = n.
Proof.
  unfold reindex. rewrite length_app, length_firstn, repeat_length. lia.
Qed.

Lemma betas_length (px betas_in : list float) :
  length (betas px betas_in) = length px.
Proof. apply reindex_length. Qed.

Lemma alphas_length (px : list float) (alphas_in : option (list float)) :
  length (alphas px alphas_in) = length px.
Proof.
  unfold alphas. destruct alphas_in; [apply reindex_length|apply repeat_length].
Qed.

Lemma calculate_returns_lengths
    (series_mean series_std : list float -> float)
    (px py : list float) (positions : list Z) (betas : list float)
    (tc : float) (alphas : option (list float)) :
  length py = length px ->
  length positions = length px ->
  let r := calculate_returns series_mean series_std px py positions betas
             tc alphas in
  length (r_strategy_pnl r) = length px
  /\ length (r_strategy_pnl_net r) = length px
  /\ length (r_daily_return r) = length px
  /\ length (r_daily_return_net r) = length px.
Proof.
  intros Hy Hp r.
  subst r. cbn [calculate_returns r_strategy_pnl r_strategy_pnl_net
                r_daily_return r_daily_return_net].
  assert (Hs : length (spread px py betas alphas) = length px).
  { unfold spread.
    rewrite !series_op_length, alphas_length, betas_length. lia. }
  assert (Hg : length (gross_notional px py betas) = length px).
  { unfold gross_notional.
    rewrite !series_op_length, !length_map, betas_length. lia. }
  assert (Hpnl : length (strategy_pnl px py positions betas alphas)
                 = length px).
  { unfold strategy_pnl.
    rewrite series_op_length, pos_lag_length, spread_change_length. lia. }
  assert (Hnet : length (strategy_pnl_net px py positions betas tc alphas)
                 = length px).
  { unfold strategy_pnl_net, daily_costs.
    rewrite !series_op_length, length_map, units_traded_length. lia. }
  unfold daily_return, daily_return_net, fillna0, replace_inf0.
  rewrite !length_map, !series_op_length, capital_shift_length.
  lia.
Qed.

Lemma construct_on_index_fits (arg : series_arg) (n : nat) :
  fits_index arg n = true ->
  exists col, construct_on_index arg n = Returned col /\ length col = n.
Proof.
  destruct arg as [s|a]; cbn [fits_index construct_on_index]; intros H.
  - eexists. split; [reflexivity|apply reindex_length].
  - rewrite H. eexists. split; [reflexivity|now apply Nat.eqb_eq].
Qed.

Lemma construct_on_index_misfit (arg : series_arg) (n : nat) :
  fits_index arg n = false ->
  construct_on_index arg n
  = Raised (ValueError "Length of values does not match length of index").
Proof.
  destruct arg as [s|a]; cbn [fits_index construct_on_index]; intros H;
    [discriminate|now rewrite H].
Qed.

(** X10: [calculate_returns] checks the length of array arguments and of
    nothing else: an array [betas] (or, [betas] being accepted, an array
    [alphas]) of another length than [px] makes the call raise ValueError;
    otherwise the call returns, and when [py] and the positions have the
    length of [px], so have the gross and net P&L and the gross and net
    returns (a Series [betas] or [alphas] of any length is re-indexed). *)
Theorem result_columns_are_aligned :
  forall (series_mean series_std : list float -> float)
         (px py : list float) (positions : list Z) (betas : series_arg)
         (tc : float) (alphas : option series_arg),
    let call := calculate_returns_call series_mean series_std px py positions
                  betas tc alphas in
    let mismatch :=
      Raised (ValueError "Length of values does not match length of index") in
    (fits_index betas (length px) = false -> call = mismatch)
    /\ (forall arg, alphas = Some arg ->
          fits_index betas (length px) = true ->
          fits_index arg (length px) = false -> call = mismatch)
    /\ (fits_index betas (length px) = true ->
        (forall arg, alphas = Some arg ->
                     fits_index arg (length px) = true) ->
        exists r : ReturnsResult,
          call = Returned r
          /\ (length py = length px ->
              length positions = length px ->
              length (r_strategy_pnl r) = length px
              /\ length (r_strategy_pnl_net r) = length px
              /\ length (r_daily_return r) = length px
              /\ length (r_daily_return_net r) = length px)).
Proof.
  intros series_mean series_std px py positions betas tc alphas call mismatch.
  subst call mismatch. unfold calculate_returns_call.
  split; [|split].
  - intros Hb. now rewrite construct_on_index_misfit.
  - intros arg -> Hb Ha.
    destruct (construct_on_index_fits _ _ Hb) as (col & -> & _).
    cbn [bind]. now rewrite construct_on_index_misfit.
  - intros Hb Ha.
    destruct (construct_on_index_fits _ _ Hb) as (col & -> & _).
    cbn [bind]. destruct alphas as [arg|].
    + destruct (construct_on_index_fits _ _ (Ha arg eq_refl)) as (ca & -> & _).
      cbn [bind]. eexists. split; [reflexivity|].
      intros Hy Hp. now apply calculate_returns_lengths.
    + eexists. split; [reflexivity|].
      intros Hy Hp. now apply calculate_returns_lengths.
Qed.

(** An array of one hedge ratio against three prices is refused; the same
    values as a Series are re-indexed and the columns have three entries. *)
Lemma result_columns_are_aligned_witness :
  calculate_returns_call Sample.mean_seq Sample.std_one Scenario.px3
    Scenario.py3 Scenario.positions_hold (AsArray [F64.one]) Sample.f0_001
    None
  = Raised (ValueError "Length of values does not match length of index")
  /\ exists r : ReturnsResult,
       calculate_returns_call Sample.mean_seq Sample.std_one Scenario.px3
         Scenario.py3 Scenario.positions_hold (AsSeries [F64.one])
         Sample.f0_001 None
       = Returned r
       /\ length (r_daily_return_net r) = 3.
Proof.
  split.
  - refine (proj1 (result_columns_are_aligned Sample.mean_seq Sample.std_one
                     Scenario.px3 Scenario.py3 Scenario.positions_hold
                     (AsArray [F64.one]) Sample.f0_001 None) _).
    reflexivity.
  - destruct (proj2 (proj2
                (result_columns_are_aligned Sample.mean_seq Sample.std_one
                   Scenario.px3 Scenario.py3 Scenario.positions_hold
                   (AsSeries [F64.one]) Sample.f0_001 None))
                eq_refl)
      as (r & Hr & Hlen).
    + intros arg H. discriminate H.
    + exists r. split; [exact Hr|].
      now destruct (Hlen eq_refl eq_refl) as (_ & _ & _ & H).
Defined.

(** X11: holding a position costs nothing: in a period without turnover
    and with a finite cost base [tc * gross notional], the net P&L is the
    gross P&L (both are zeros when the gross P&L is a zero). *)
Theorem no_turnover_no_cost :
  forall (px py : list float) (positions : list Z) (betas : list float)
         (tc : float) (alphas : option (list float))
         (t : nat) (u g p : float),
    nth_error (units_traded positions) t = Some u ->
    F64.is_zero u = true ->
    nth_error (gross_notional px py betas) t = Some g ->
    F64.is_finite (F64.mul tc g) = true ->
    nth_error (strategy_pnl px py positions betas alphas) t = Some p ->
    exists n : float,
      nth_error (strategy_pnl_net px py positions betas tc alphas) t = Some n
      /\ (n = p \/ (F64.is_zero p = true /\ F64.is_zero n = true)).
Proof.
  intros px py positions betas tc alphas t u g p Hu Hz Hg Hfin Hp.
  assert (Htu : t < length (units_traded positions))
    by (apply nth_error_Some; congruence).
  assert (Htg : t < length (gross_notional px py betas))
    by (apply nth_error_Some; congruence).
  assert (Htp : t < length (strategy_pnl px py positions betas alphas))
    by (apply nth_error_Some; congruence).
  pose proof (nth_error_nth _ _ F64.nan Hu) as Eu.
  pose proof (nth_error_nth _ _ F64.nan Hg) as Eg.
  pose proof (nth_error_nth _ _ F64.nan Hp) as Ep.
  assert (Hc : nth t (daily_costs px py positions betas tc) F64.nan
               = F64.mul (F64.mul tc g) u).
  { unfold daily_costs.
    rewrite series_op_nth by (rewrite length_map; lia).
    rewrite (map_nth_inside (F64.mul tc) _ F64.nan) by exact Htg.
    now rewrite Eu, Eg. }
  exists (F64.sub p (F64.mul (F64.mul tc g) u)). split.
  - unfold strategy_pnl_net.
    rewrite (nth_error_inside _ F64.nan) by (rewrite series_op_length; lia).
    rewrite series_op_nth by lia.
    now rewrite Hc, Ep.
  - destruct u as [su| | |]; try discriminate.
    destruct (F64.mul tc g) as [sc| | |sc mc ec]; try discriminate;
      (destruct p as [sp| | |]; cbn; auto;
       right; split; [reflexivity|]; now destruct sp, (xorb sc su)).
Qed.

Lemma no_turnover_no_cost_witness :
  exists n : float,
    nth_error (strategy_pnl_net Scenario.px3 Scenario.py3
                 Scenario.positions_hold Scenario.betas3 Sample.f0_001 None) 2
    = Some n
    /\ (n = F64.one \/ (F64.is_zero F64.one = true /\ F64.is_zero n = true)).
Proof.
  apply (no_turnover_no_cost Scenario.px3 Scenario.py3
           Scenario.positions_hold Scenario.betas3 Sample.f0_001 None 2
           (u := F64.zero) (g := F64.of_Z 154));
    vm_compute; reflexivity.
Defined.

(** ** Signs of notional and costs *)

Module NotNegative.

Lemma nn_of_nan : not_negative F64.nan = true.
Proof. reflexivity. Qed.

Lemma nn_abs (x : float) : not_negative (F64.abs x) = true.
Proof. now destruct x. Qed.

Lemma nn_fill0 (x : float) :
  not_negative x = true -> not_negative (fill0 x) = true.
Proof. now destruct x. Qed.

(** Rounding with a clear sign bit gives nothing below zero. *)
Lemma nn_round_aux (m e : Z) (l : location) :
  not_negative (binary_round_aux F64.prec F64.emax false m e l) = true.
Proof.
  unfold binary_round_aux.
  destruct (shr_fexp F64.prec F64.emax m e l) as [mrs' e'].
  destruct (shr_fexp F64.prec F64.emax
              (round_nearest_even (shr_m mrs') (loc_of_shr_record mrs'))
              e' loc_Exact) as [mrs'' e''].
  destruct (shr_m mrs''); try reflexivity.
  now destruct (e'' <=? F64.emax - F64.prec)%Z.
Qed.

Lemma nn_mul (a b : float) :
  not_negative a = true -> not_negative b = true ->
  not_negative (F64.mul a b) = true.
Proof.
  destruct a as [sa|sa| |sa ma ea]; try (destruct sa; try discriminate);
    intros _;
    destruct b as [sb|sb| |sb mb eb]; try (destruct sb; try discriminate);
    intros _; try reflexivity.
  apply nn_round_aux.
Qed.

Lemma nn_add (a b : float) :
  not_negative a = true -> not_negative b = true ->
  not_negative (F64.add a b) = true.
Proof.
  destruct a as [sa|sa| |sa ma ea]; try (destruct sa; try discriminate);
    intros _;
    destruct b as [sb|sb| |sb mb eb]; try (destruct sb; try discriminate);
    intros _; try reflexivity.
  unfold F64.add, SFadd, cond_Zopp.
  cbn [Z.add binary_normalize]. unfold binary_round.
  match goal with
  | |- context [shl_align ?m ?e ?e'] =>
      destruct (shl_align m e e') as [mz ez]
  end.
  apply nn_round_aux.
Qed.

Lemma nn_of_leb (x : float) :
  F64.leb F64.zero x = true -> not_negative x = true.
Proof. destruct x as [s|s| |s m e]; try discriminate; now destruct s. Qed.

End NotNegative.

Section CostSigns.

Variables px py : list float.
Variable positions_in : list Z.
Variable betas_in : list float.

Let NN : float -> Prop := fun x => not_negative x = true.

Lemma gross_notional_not_negative :
  Forall (fun g => not_negative g = true) (gross_notional px py betas_in).
Proof.
  assert (Habs : forall l, Forall NN (map F64.abs l)).
  { intros l. apply Forall_map, Forall_forall. intros x _.
    apply NotNegative.nn_abs. }
  unfold gross_notional.
  apply (@series_op_Forall F64.add NN NN NN);
    [reflexivity|reflexivity|exact NotNegative.nn_add|apply Habs|].
  apply (@series_op_Forall F64.mul NN NN NN);
    [reflexivity|reflexivity|exact NotNegative.nn_mul|apply Habs|apply Habs].
Qed.

Lemma units_traded_not_negative :
  Forall (fun u => not_negative u = true) (units_traded positions_in).
Proof.
  unfold units_traded, fillna0. rewrite map_map.
  apply Forall_map, Forall_forall. intros x _.
  apply NotNegative.nn_fill0, NotNegative.nn_abs.
Qed.

End CostSigns.

(** X12: the capital at risk and the cost of trading are never negative:
    no gross notional compares below zero, and for a cost rate [tc >= 0] no
    transaction cost does (an entry may be NaN where an input is). *)
Theorem costs_are_not_negative :
  forall (px py : list float) (positions : list Z) (betas : list float)
         (tc : float),
    Forall (fun g => F64.ltb g F64.zero = false) (gross_notional px py betas)
    /\ (F64.leb F64.zero tc = true ->
        Forall (fun c => F64.ltb c F64.zero = false)
          (daily_costs px py positions betas tc)).
Proof.
  intros px py positions betas tc.
  assert (Hnn : forall l,
             Forall (fun x => not_negative x = true) l ->
             Forall (fun x => F64.ltb x F64.zero = false) l).
  { intros l. apply Forall_impl. intros x. unfold not_negative.
    now destruct (F64.ltb x F64.zero). }
  split.
  - apply Hnn, gross_notional_not_negative.
  - intros Htc. apply Hnn. unfold daily_costs.
    apply (@series_op_Forall F64.mul
             (fun x => not_negative x = true)
             (fun x => not_negative x = true)
             (fun x => not_negative x = true));
      [reflexivity|reflexivity|exact NotNegative.nn_mul| |
       apply units_traded_not_negative].
    apply Forall_map.
    generalize (gross_notional_not_negative px py betas).
    apply Forall_impl. intros g Hg.
    apply NotNegative.nn_mul; [now apply NotNegative.nn_of_leb|exact Hg].
Qed.

Lemma costs_are_not_negative_witness :
  Forall (fun c => F64.ltb c F64.zero = false)
    (daily_costs Scenario.px3 Scenario.py3 Sample.positions_enter
       Scenario.betas3 Sample.f0_001).
Proof.
  refine (proj2 (costs_are_not_negative Scenario.px3 Scenario.py3
                   Sample.positions_enter Scenario.betas3 Sample.f0_001) _).
  reflexivity.
Defined.

(** ** Cumulative columns *)

Section Accumulate.

Variable f : float -> float -> float.

Lemma accumulate_from_length (xs : list float) :
  forall acc, length (accumulate_from f acc xs) = length xs.
Proof.
  induction xs as [|x xs IH]; intros acc; cbn; [reflexivity|].
  now rewrite IH.
Qed.

Lemma np_accumulate_length (xs : list float) :
  length (np_accumulate f xs) = length xs.
Proof.
  destruct xs as [|x xs]; cbn; [reflexivity|].
  now rewrite accumulate_from_length.
Qed.

Lemma accumulate_from_nth (xs : list float) :
  forall acc t,
    t < length xs ->
    nth_error (accumulate_from f acc xs) t
    = Some (fold_left f (firstn (S t) xs) acc).
Proof.
  induction xs as [|x xs IH]; intros acc t Ht; cbn [length] in Ht; [lia|].
  destruct t as [|t]; cbn [accumulate_from nth_error firstn fold_left].
  - reflexivity.
  - apply IH. lia.
Qed.

(** Entry [t] of the running fold is the fold of the first [t + 1] values. *)
Lemma np_accumulate_nth (xs : list float) (t : nat) (d : float) :
  t < length xs ->
  nth_error (np_accumulate f xs) t
  = Some (fold_from_first f (firstn (S t) xs) d).
Proof.
  intros Ht. destruct xs as [|x xs]; cbn [length] in Ht; [lia|].
  destruct t as [|t]; cbn [np_accumulate nth_error firstn fold_from_first].
  - reflexivity.
  - rewrite accumulate_from_nth by lia. reflexivity.
Qed.

(** Without NaN in the column nothing is skipped. *)
Lemma na_accum_no_nan (neutral : float) (xs : list float) :
  Forall (fun x => F64.is_nan x = false) xs ->
  na_accum f neutral xs = np_accumulate f xs.
Proof.
  intros H. unfold na_accum.
  assert (E : map (fun x => if F64.is_nan x then neutral else x) xs = xs).
  { induction H as [|x xs Hx _ IH]; cbn; [reflexivity|].
    now rewrite Hx, IH. }
  rewrite E. clear E.
  assert (G : forall ys : list float,
             length ys = length xs ->
             map (fun xr : float * float =>
                    if F64.is_nan (fst xr) then F64.nan else snd xr)
                 (combine xs ys) = ys).
  { induction H as [|x xs Hx _ IH]; intros [|y ys] Hl; cbn in *;
      try reflexivity; try discriminate.
    rewrite Hx, IH by lia. reflexivity. }
  apply G, np_accumulate_length.
Qed.

End Accumulate.

Lemma binary_normalize_not_nan (m e : Z) (s : bool) :
  F64.is_nan (binary_normalize F64.prec F64.emax m e s) = false.
Proof.
  unfold binary_normalize.
  destruct m as [|p|p]; [reflexivity| |];
    unfold binary_round;
    destruct (shl_align p e (fexp F64.prec F64.emax (Z.pos (digits2_pos p) + e)));
    apply F64Facts.binary_round_aux_not_nan; lia.
Qed.

(** One plus a finite number is a number. *)
Lemma add_one_finite_not_nan (r : float) :
  F64.is_finite r = true -> F64.is_nan (F64.add F64.one r) = false.
Proof.
  destruct r as [s| | |s m e]; try discriminate; intros _; [reflexivity|].
  unfold F64.add, F64.one, SFadd. apply binary_normalize_not_nan.
Qed.

Lemma growth_factors_no_nan (rs : list float) :
  Forall (fun r => F64.is_finite r = true) rs ->
  Forall (fun g => F64.is_nan g = false) (map (F64.add F64.one) rs).
Proof.
  intros H. apply Forall_map. revert H. apply Forall_impl.
  exact add_one_finite_not_nan.
Qed.

(** The compounding of a column of finite returns. *)
Lemma compounded_nth (rs : list float) (t : nat) :
  Forall (fun r => F64.is_finite r = true) rs ->
  t < length rs ->
  nth_error (map (fun c => F64.sub c F64.one)
               (cumprod (map (F64.add F64.one) rs))) t
  = Some (F64.sub (product_of (map (F64.add F64.one) (firstn (S t) rs)))
            F64.one).
Proof.
  intros Hfin Ht. unfold cumprod.
  rewrite na_accum_no_nan by now apply growth_factors_no_nan.
  rewrite nth_error_map, (np_accumulate_nth _ _ F64.one)
    by now rewrite length_map.
  cbn [option_map]. unfold product_of. now rewrite firstn_map.
Qed.

(** X13: cumulative returns compound the period returns: at every period
    [t] the cumulative return is the product, taken left to right, of
    [1 + return[k]] over the periods [k <= t], minus one; gross and net
    alike, with no period skipped since returns are never NaN. *)
Theorem cumulative_returns_compound :
  forall (px py : list float) (positions : list Z) (betas : list float)
         (tc : float) (alphas : option (list float)) (t : nat),
    (t < length (daily_return px py positions betas alphas) ->
     nth_error (cum_returns px py positions betas alphas) t
     = Some (F64.sub
               (product_of
                  (map (F64.add F64.one)
                     (firstn (S t)
                        (daily_return px py positions betas alphas))))
               F64.one))
    /\ (t < length (daily_return_net px py positions betas tc alphas) ->
        nth_error (cum_returns_net px py positions betas tc alphas) t
        = Some (F64.sub
                  (product_of
                     (map (F64.add F64.one)
                        (firstn (S t)
                           (daily_return_net px py positions betas tc
                              alphas))))
                  F64.one)).
Proof.
  intros px py positions betas tc alphas t.
  destruct (returns_are_finite px py positions betas tc alphas) as [Hg Hn].
  split; intros Ht; now apply compounded_nth.
Qed.

Lemma cumulative_returns_compound_witness :
  nth_error (cum_returns_net Scenario.px3 Scenario.py3 Sample.positions_enter
               Scenario.betas3 Sample.f0_001 None) 2
  = Some (F64.sub
            (product_of
               (map (F64.add F64.one)
                  (firstn 3
                     (daily_return_net Scenario.px3 Scenario.py3
                        Sample.positions_enter Scenario.betas3 Sample.f0_001
                        None))))
            F64.one).
Proof.
  refine (proj2 (cumulative_returns_compound Scenario.px3 Scenario.py3
                   Sample.positions_enter Scenario.betas3 Sample.f0_001 None
                   2) _).
  vm_compute. lia.
Defined.

(** X14: cumulative P&L is the running total: when no period's gross P&L
    is NaN, the cumulative P&L at period [t] is the sum, taken left to
    right, of the P&L of the periods [k <= t]; likewise net of costs. *)
Theorem cumulative_pnl_is_running_total :
  forall (px py : list float) (positions : list Z) (betas : list float)
         (tc : float) (alphas : option (list float)) (t : nat),
    (Forall (fun p => F64.is_nan p = false)
       (strategy_pnl px py positions betas alphas) ->
     t < length (strategy_pnl px py positions betas alphas) ->
     nth_error (cum_pnl px py positions betas alphas) t
     = Some (sum_of (firstn (S t)
                       (strategy_pnl px py positions betas alphas))))
    /\ (Forall (fun p => F64.is_nan p = false)
          (strategy_pnl_net px py positions betas tc alphas) ->
        t < length (strategy_pnl_net px py positions betas tc alphas) ->
        nth_error (cum_pnl_net px py positions betas tc alphas) t
        = Some (sum_of (firstn (S t)
                          (strategy_pnl_net px py positions betas tc
                             alphas)))).
Proof.
  intros px py positions betas tc alphas t.
  unfold cum_pnl, cum_pnl_net, cumsum, sum_of.
  split; intros Hn Ht;
    now rewrite na_accum_no_nan, (np_accumulate_nth _ _ F64.zero).
Qed.

Lemma cumulative_pnl_is_running_total_witness :
  nth_error (cum_pnl Scenario.px3 Scenario.py3 Scenario.positions_hold
               Scenario.betas3 None) 2
  = Some (F64.of_Z 2).
Proof.
  refine (eq_trans
            (proj1 (cumulative_pnl_is_running_total Scenario.px3 Scenario.py3
                      Scenario.positions_hold Scenario.betas3 Sample.f0_001
                      None 2) _ _) _).
  - repeat constructor.
  - vm_compute. lia.
  - vm_compute. reflexivity.
Defined.

(** ** [fit_rolling_params]: failures, the test, and growing data *)

Section FitFailures.

Variable label : Type.
Variable OLS_params :
  Series label float -> Series label float -> outcome (float * float).
Variable coint : Series label float -> Series label float -> outcome float.
Variables series_mean series_std : list float -> float.
Variables px py : Series label float.
Variable window : nat.

Local Abbreviation X := (window_X px window).
Local Abbreviation Y := (window_Y py window).
Local Abbreviation loop :=
  (fit_loop OLS_params coint series_mean series_std px py window).

(** The loop stops at the first window whose regression raises. *)
Lemma fit_loop_first_failure (before : list nat) :
  forall (i : nat) (after : list nat) (acc : fit_lists) (e : exn),
    (forall j, In j before -> ~ fails (OLS_params (X j) (Y j))) ->
    OLS_params (X i) (Y i) = Raised e ->
    loop (before ++ i :: after) acc = Raised e.
Proof.
  induction before as [|j before IH]; intros i after acc e Hok Hi.
  - cbn [app fit_loop]. unfold fit_body. now rewrite Hi.
  - cbn [app fit_loop]. rewrite fit_body_estimate.
    rewrite estimate_returns by (apply Hok; now left).
    cbn [bind]. apply IH; [|exact Hi].
    intros k Hk. apply Hok. now right.
Qed.

Lemma fit_rolling_params_first_failure (i : nat) (e : exn) :
  window <= i < length px ->
  (forall j, window <= j < i -> ~ fails (OLS_params (X j) (Y j))) ->
  OLS_params (X i) (Y i) = Raised e ->
  fit_rolling_params OLS_params coint series_mean series_std px py window
  = Raised e.
Proof.
  intros Hi Hok He. unfold fit_rolling_params.
  replace (length px - window)
    with ((i - window) + S (length px - S i)) by lia.
  rewrite seq_app. cbn [seq].
  replace (window + (i - window)) with i by lia.
  rewrite (@fit_loop_first_failure (seq window (i - window)) i _ _ e).
  - reflexivity.
  - intros j Hj. apply Hok. apply in_seq in Hj. lia.
  - exact He.
Qed.

End FitFailures.

(** X15: a regression failure is not caught: [fit_rolling_params] raises
    the error of the first window whose regression raises, and returns
    nothing, whatever later windows or the cointegration test would do. *)
Theorem regression_failure_is_raised :
  forall (label : Type)
         (OLS_params :
            Series label float -> Series label float -> outcome (float * float))
         (coint : Series label float -> Series label float -> outcome float)
         (series_mean series_std : list float -> float)
         (px py : Series label float) (w i : nat) (e : exn),
    w <= i < length px ->
    (forall j, w <= j < i ->
       ~ fails (OLS_params (iloc_slice px (j - w) j) (iloc_slice py (j - w) j))) ->
    OLS_params (iloc_slice px (i - w) i) (iloc_slice py (i - w) i) = Raised e ->
    fit_rolling_params OLS_params coint series_mean series_std px py w
    = Raised e.
Proof.
  intros label OLS_params coint series_mean series_std px py w i e Hi Hok He.
  now apply fit_rolling_params_first_failure with (i := i).
Qed.

Lemma regression_failure_is_raised_witness :
  fit_rolling_params Sample.ols_failing Scenario.coint_quarter
    Sample.mean_seq Sample.std_one Scenario.prices3 Scenario.hedges3 1
  = Raised (Exception "singular matrix").
Proof.
  apply (regression_failure_is_raised Sample.ols_failing
           Scenario.coint_quarter Sample.mean_seq Sample.std_one
           Scenario.prices3 Scenario.hedges3 (w := 1) (i := 1)).
  - cbn. lia.
  - intros j Hj. lia.
  - reflexivity.
Defined.

(** X16: a window of 0 hands the regression empty slices: on non-empty
    prices, if the regression raises on empty data, [fit_rolling_params]
    with window 0 raises that error. *)
Theorem zero_window_regresses_on_nothing :
  forall (label : Type)
         (OLS_params :
            Series label float -> Series label float -> outcome (float * float))
         (coint : Series label float -> Series label float -> outcome float)
         (series_mean series_std : list float -> float)
         (px py : Series label float) (e : exn),
    0 < length px ->
    OLS_params [] [] = Raised e ->
    fit_rolling_params OLS_params coint series_mean series_std px py 0
    = Raised e.
Proof.
  intros label OLS_params coint series_mean series_std px py e Hx He.
  apply fit_rolling_params_first_failure with (i := 0).
  - lia.
  - intros j Hj. lia.
  - exact He.
Qed.

Lemma zero_window_regresses_on_nothing_witness :
  fit_rolling_params Scenario.ols_needs_data Scenario.coint_quarter
    Sample.mean_seq Sample.std_one Scenario.prices3 Scenario.hedges3 0
  = Raised (ValueError "zero-size array").
Proof.
  apply (zero_window_regresses_on_nothing Scenario.ols_needs_data
           Scenario.coint_quarter Sample.mean_seq Sample.std_one
           Scenario.prices3 Scenario.hedges3).
  - cbn. lia.
  - reflexivity.
Defined.

(** X17: a p-value the test returns is reported unchanged: when the
    cointegration test returns [p] on the window of timestamp [i] (and the
    regression returns on every window), the p-value at [i] is [p]. *)
Theorem coint_pvalue_is_reported :
  forall (label : Type)
         (OLS_params :
            Series label float -> Series label float -> outcome (float * float))
         (coint : Series label float -> Series label float -> outcome float)
         (series_mean series_std : list float -> float)
         (px py : Series label float) (w i : nat) (p : float),
    (forall j, w <= j < length px ->
               ~ fails (OLS_params (window_X px w j) (window_Y py w j))) ->
    w <= i < length px ->
    coint (iloc_slice px (i - w) i) (iloc_slice py (i - w) i) = Returned p ->
    exists sa sb sm ss sp : Series label float,
      fit_rolling_params OLS_params coint series_mean series_std px py w
      = Returned (sa, sb, sm, ss, sp)
      /\ nth_error (values sp) (i - w) = Some p.
Proof.
  intros label OLS_params coint series_mean series_std px py w i p Hols Hi Hc.
  rewrite fit_rolling_params_returns by exact Hols.
  unfold fit_result. do 5 eexists. split; [reflexivity|].
  rewrite fit_column_nth by exact Hi.
  specialize (Hols i Hi).
  unfold estimate_at, window_estimate, window_X, window_Y in *.
  destruct (OLS_params (iloc_slice px (i - w) i) (iloc_slice py (i - w) i))
    as [[a b]|e'].
  - cbn [bind e_cointPValue]. unfold pval_of. now rewrite Hc.
  - exfalso. apply Hols. now exists e'.
Qed.

Lemma coint_pvalue_is_reported_witness :
  exists sa sb sm ss sp : Series nat float,
    fit_rolling_params Sample.ols_unit Scenario.coint_quarter
      Sample.mean_seq Sample.std_one Scenario.prices3 Scenario.hedges3 2
    = Returned (sa, sb, sm, ss, sp)
    /\ nth_error (values sp) 0 = Some (F64.ratio 1 4).
Proof.
  apply (coint_pvalue_is_reported Sample.ols_unit Scenario.coint_quarter
           Sample.mean_seq Sample.std_one Scenario.prices3 Scenario.hedges3
           (w := 2) (i := 2)).
  - intros j _ [e He]. discriminate He.
  - cbn. lia.
  - reflexivity.
Defined.

(** X18: each regression sees exactly the [w] rows before its timestamp:
    for [w <= i <= len(px)] the slice [px[i-w:i]] has [w] rows, and its row
    [k] is row [i - w + k] of [px]. *)
Theorem window_has_w_rows :
  forall (label : Type) (px : Series label float) (w i : nat),
    w <= i -> i <= length px ->
    length (iloc_slice px (i - w) i) = w
    /\ forall k, k < w ->
         nth_error (iloc_slice px (i - w) i) k = nth_error px (i - w + k).
Proof.
  intros label px w i Hw Hi. unfold iloc_slice. split.
  - rewrite length_firstn, length_skipn. lia.
  - intros k Hk. rewrite nth_error_firstn, nth_error_skipn.
    destruct (Nat.ltb_spec k (i - (i - w))); [reflexivity|lia].
Qed.

Lemma window_has_w_rows_witness :
  length (iloc_slice Scenario.prices3 (2 - 2) 2) = 2.
Proof.
  refine (proj1 (window_has_w_rows Scenario.prices3 (w := 2) (i := 2) _ _));
    cbn; lia.
Defined.

Section CointIrrelevant.

Variable label : Type.
Variable OLS_params :
  Series label float -> Series label float -> outcome (float * float).
Variables coint1 coint2 :
  Series label float -> Series label float -> outcome float.
Variables series_mean series_std : list float -> float.
Variables px py : Series label float.
Variable window : nat.

Lemma fit_loop_coint_irrelevant (range : list nat) :
  forall a1 a2 : fit_lists,
    agree_but_pvals a1 a2 ->
    match fit_loop OLS_params coint1 series_mean series_std px py window
            range a1,
          fit_loop OLS_params coint2 series_mean series_std px py window
            range a2
    with
    | Returned r1, Returned r2 => agree_but_pvals r1 r2
    | Raised e1, Raised e2 => e1 = e2
    | _, _ => False
    end.
Proof.
  induction range as [|i range IH]; intros a1 a2 H; [exact H|].
  cbn [fit_loop]. unfold fit_body.
  destruct (OLS_params (window_X px window i) (window_Y py window i))
    as [[a b]|e]; cbn [bind]; [|reflexivity].
  apply IH. destruct H as (Ha & Hb & Hm & Hs & Hp).
  unfold agree_but_pvals. cbn [f_alphas f_betas f_means f_stds f_pvals].
  rewrite Ha, Hb, Hm, Hs, !length_app, Hp. repeat split.
Qed.

End CointIrrelevant.

(** X19: the cointegration test decides nothing but the p-values: run with
    any two tests, [fit_rolling_params] either raises the same error or
    returns the same intercepts, slopes, spread means and spread deviations,
    with p-values on the same index. *)
Theorem coint_only_decides_pvalues :
  forall (label : Type)
         (OLS_params :
            Series label float -> Series label float -> outcome (float * float))
         (coint1 coint2 :
            Series label float -> Series label float -> outcome float)
         (series_mean series_std : list float -> float)
         (px py : Series label float) (w : nat),
    match fit_rolling_params OLS_params coint1 series_mean series_std px py w,
          fit_rolling_params OLS_params coint2 series_mean series_std px py w
    with
    | Returned (a1, b1, m1, s1, p1), Returned (a2, b2, m2, s2, p2) =>
        a1 = a2 /\ b1 = b2 /\ m1 = m2 /\ s1 = s2 /\ index p1 = index p2
    | Raised e1, Raised e2 => e1 = e2
    | _, _ => False
    end.
Proof.
  intros label OLS_params coint1 coint2 series_mean series_std px py w.
  unfold fit_rolling_params.
  assert (H0 : agree_but_pvals fit_empty fit_empty) by (repeat split).
  pose proof (fit_loop_coint_irrelevant OLS_params coint1 coint2 series_mean
                series_std px py w (seq w (length px - w)) H0) as H.
  destruct (fit_loop OLS_params coint1 series_mean series_std px py w
              (seq w (length px - w)) fit_empty) as [r1|e1];
    destruct (fit_loop OLS_params coint2 series_mean series_std px py w
                (seq w (length px - w)) fit_empty) as [r2|e2];
    cbn [bind]; try contradiction; [|exact H].
  destruct H as (Ha & Hb & Hm & Hs & Hp).
  rewrite <- Ha, <- Hb, <- Hm, <- Hs.
  destruct (pd_Series (f_alphas r1) (skipn w (index px))) as [sa|e];
    cbn [bind]; [|reflexivity].
  destruct (pd_Series (f_betas r1) (skipn w (index px))) as [sb|e];
    cbn [bind]; [|reflexivity].
  destruct (pd_Series (f_means r1) (skipn w (index px))) as [sm|e];
    cbn [bind]; [|reflexivity].
  destruct (pd_Series (f_stds r1) (skipn w (index px))) as [ss|e];
    cbn [bind]; [|reflexivity].
  unfold pd_Series. rewrite <- Hp.
  destruct (Nat.eqb_spec (length (f_pvals r1)) (length (skipn w (index px))))
    as [E|E]; cbn [bind]; [|reflexivity].
  repeat split. now rewrite !index_combine by congruence.
Qed.

Section GrowingData.

Variable label : Type.
Variable OLS_params :
  Series label float -> Series label float -> outcome (float * float).
Variable coint : Series label float -> Series label float -> outcome float.
Variables series_mean series_std : list float -> float.
Variables px py more_px more_py : Series label float.
Variable window : nat.
Hypothesis aligned : length py = length px.

(** A slice that ends within the old rows does not see the new ones. *)
Lemma iloc_slice_app {A : Type} (s more : list A) (a b : nat) :
  b <= length s -> iloc_slice (s ++ more) a b = iloc_slice s a b.
Proof.
  intros Hb. unfold iloc_slice.
  rewrite skipn_app, firstn_app, length_skipn.
  replace (b - a - (length s - a)) with 0 by lia.
  now rewrite firstn_O, app_nil_r.
Qed.

Lemma estimate_at_app (i : nat) :
  i <= length px ->
  estimate_at OLS_params coint series_mean series_std
    (px ++ more_px) (py ++ more_py) window i
  = estimate_at OLS_params coint series_mean series_std px py window i.
Proof.
  intros Hi. unfold estimate_at, window_X, window_Y.
  now rewrite !iloc_slice_app by lia.
Qed.

(** A column of the fit on the longer data starts with the column of the
    fit on the shorter data. *)
Lemma fit_column_app (g : RollingEstimate -> float) :
  exists tail : Series label float,
    combine (skipn window (index (px ++ more_px)))
      (map g (map (estimate_at OLS_params coint series_mean series_std
                     (px ++ more_px) (py ++ more_py) window)
                  (seq window (length (px ++ more_px) - window))))
    = combine (skipn window (index px))
        (map g (map (estimate_at OLS_params coint series_mean series_std
                       px py window)
                    (seq window (length px - window))))
      ++ tail.
Proof.
  destruct (Nat.le_gt_cases window (length px)) as [Hw|Hw].
  - rewrite length_app.
    replace (length px + length more_px - window)
      with ((length px - window) + length more_px) by lia.
    rewrite seq_app, !map_app.
    unfold index. rewrite map_app, skipn_app, length_map.
    replace (window - length px) with 0 by lia. cbn [skipn].
    rewrite combine_app_aligned
      by now rewrite length_skipn, !length_map, length_seq.
    eexists. f_equal. f_equal. f_equal.
    apply map_ext_in. intros i Hi. apply in_seq in Hi.
    apply estimate_at_app. lia.
  - rewrite (skipn_all2 (index px)) by (rewrite index_length; lia).
    cbn [combine app]. eexists. reflexivity.
Qed.

Lemma window_estimate_app (i : nat) :
  i <= length px ->
  OLS_params (window_X (px ++ more_px) window i)
    (window_Y (py ++ more_py) window i)
  = OLS_params (window_X px window i) (window_Y py window i).
Proof.
  intros Hi. unfold window_X, window_Y.
  now rewrite !iloc_slice_app by lia.
Qed.

End GrowingData.

(** X20: new data never revises old estimates: when price rows are
    appended to aligned [px] and [py] (and the regression returns on every
    window), each of the five Series of the longer fit starts with the
    corresponding Series of the shorter fit. *)
Theorem appended_data_keeps_estimates :
  forall (label : Type)
         (OLS_params :
            Series label float -> Series label float -> outcome (float * float))
         (coint : Series label float -> Series label float -> outcome float)
         (series_mean series_std : list float -> float)
         (px py more_px more_py : Series label float) (w : nat),
    length py = length px ->
    (forall i, w <= i < length (px ++ more_px) ->
       ~ fails (OLS_params (window_X (px ++ more_px) w i)
                  (window_Y (py ++ more_py) w i))) ->
    exists sa sb sm ss sp ta tb tm ts tp : Series label float,
      fit_rolling_params OLS_params coint series_mean series_std px py w
      = Returned (sa, sb, sm, ss, sp)
      /\ fit_rolling_params OLS_params coint series_mean series_std
           (px ++ more_px) (py ++ more_py) w
         = Returned (sa ++ ta, sb ++ tb, sm ++ tm, ss ++ ts, sp ++ tp).
Proof.
  intros label OLS_params coint series_mean series_std px py more_px more_py
         w Hal Hols.
  rewrite fit_rolling_params_returns with (px := px ++ more_px)
    by exact Hols.
  rewrite fit_rolling_params_returns with (px := px).
  2:{ intros i Hi.
      rewrite <- (window_estimate_app OLS_params px py more_px more_py w Hal)
        by lia.
      apply Hols. rewrite length_app. lia. }
  unfold fit_result.
  destruct (fit_column_app OLS_params coint series_mean series_std
              px py more_px more_py w Hal e_alpha) as [ta ->].
  destruct (fit_column_app OLS_params coint series_mean series_std
              px py more_px more_py w Hal e_beta) as [tb ->].
  destruct (fit_column_app OLS_params coint series_mean series_std
              px py more_px more_py w Hal e_spreadMean) as [tm ->].
  destruct (fit_column_app OLS_params coint series_mean series_std
              px py more_px more_py w Hal e_spreadStd) as [ts ->].
  destruct (fit_column_app OLS_params coint series_mean series_std
              px py more_px more_py w Hal e_cointPValue) as [tp ->].
  do 5 eexists. exists ta, tb, tm, ts, tp. split; reflexivity.
Qed.

Lemma appended_data_keeps_estimates_witness :
  exists sa sb sm ss sp ta tb tm ts tp : Series nat float,
    fit_rolling_params Sample.ols_unit Scenario.coint_quarter
      Sample.mean_seq Sample.std_one Sample.prices Sample.hedges 1
    = Returned (sa, sb, sm, ss, sp)
    /\ fit_rolling_params Sample.ols_unit Scenario.coint_quarter
         Sample.mean_seq Sample.std_one
         (Sample.prices ++ [(2, F64.of_Z 103)])
         (Sample.hedges ++ [(2, F64.of_Z 51)]) 1
       = Returned (sa ++ ta, sb ++ tb, sm ++ tm, ss ++ ts, sp ++ tp).
Proof.
  apply (appended_data_keeps_estimates Sample.ols_unit Scenario.coint_quarter
           Sample.mean_seq Sample.std_one Sample.prices Sample.hedges
           [(2, F64.of_Z 103)] [(2, F64.of_Z 51)] (w := 1)).
  - reflexivity.
  - intros i _ [e He]. discriminate He.
Defined.

(** ** [fit_rolling_params]: the trailing windows *)

(** C4, as stated, fails: the regression is called outside the [try], so a
    window on which it raises makes [fit_rolling_params] raise instead of
    returning five Series.  With window 1 every slice of [py] is a single
    row, a constant column, and the unpacking of the two parameters
    raises: on two aligned prices nothing is returned. *)
Lemma fit_rolling_params_raises_on_constant_window :
  length Sample.hedges = length Sample.prices
  /\ fit_rolling_params Scenario.ols_unpacks_two Scenario.coint_quarter
       Sample.mean_seq Sample.std_one Sample.prices Sample.hedges 1
     = Raised (ValueError "not enough values to unpack (expected 2, got 1)")
  /\ ~ (exists r,
          fit_rolling_params Scenario.ols_unpacks_two Scenario.coint_quarter
            Sample.mean_seq Sample.std_one Sample.prices Sample.hedges 1
          = Returned r).
Proof.
  split; [reflexivity|]. split; [vm_compute; reflexivity|].
  intros [r Hr]. vm_compute in Hr. discriminate Hr.
Qed.

(** C4, amended: when the regression returns on every window,
    [fit_rolling_params] returns five Series, each of length [len(px) - w]
    on the index [px.index[w:]] (so the first label is [px.index[w]]), all
    five empty when [w >= len(px)], the entry at timestamp [i] of each being
    the estimate computed from the slices [px[i-w:i]] and [py[i-w:i]] alone.
    When the regression raises on a window, having returned on the earlier
    ones, the call raises that error and returns nothing.  A slice
    [s[i-w:i]] with [w <= i <= len(s)] holds exactly the [w] rows
    [i-w .. i-1] of [s], never row [i]. *)
Theorem fit_rolling_params_trailing_windows :
  forall (label : Type)
         (OLS_params :
            Series label float -> Series label float -> outcome (float * float))
         (coint : Series label float -> Series label float -> outcome float)
         (series_mean series_std : list float -> float)
         (px py : Series label float) (w : nat),
    ((forall i, w <= i < length px ->
                ~ fails (OLS_params (window_X px w i) (window_Y py w i))) ->
     exists sa sb sm ss sp : Series label float,
       fit_rolling_params OLS_params coint series_mean series_std px py w
       = Returned (sa, sb, sm, ss, sp)
       /\ Forall (fun s : Series label float =>
                    length s = length px - w
                    /\ index s = skipn w (index px)
                    /\ hd_error (index s) = nth_error (index px) w
                    /\ (length px <= w -> s = []))
            [sa; sb; sm; ss; sp]
       /\ (forall i, w <= i < length px ->
             exists r : RollingEstimate,
               window_estimate OLS_params coint series_mean series_std
                 (iloc_slice px (i - w) i) (iloc_slice py (i - w) i)
               = Returned r
               /\ nth_error (values sa) (i - w) = Some (e_alpha r)
               /\ nth_error (values sb) (i - w) = Some (e_beta r)
               /\ nth_error (values sm) (i - w) = Some (e_spreadMean r)
               /\ nth_error (values ss) (i - w) = Some (e_spreadStd r)
               /\ nth_error (values sp) (i - w) = Some (e_cointPValue r)))
    /\ (forall (i : nat) (e : exn),
          w <= i < length px ->
          (forall j, w <= j < i ->
             ~ fails (OLS_params (window_X px w j) (window_Y py w j))) ->
          OLS_params (iloc_slice px (i - w) i) (iloc_slice py (i - w) i)
          = Raised e ->
          fit_rolling_params OLS_params coint series_mean series_std px py w
          = Raised e)
    /\ (forall (s : Series label float) (i : nat),
          w <= i -> i <= length s ->
          length (iloc_slice s (i - w) i) = w
          /\ (forall k, k < w ->
                nth_error (iloc_slice s (i - w) i) k
                = nth_error s (i - w + k)))
    /\ (forall (s : Series label float) (i k : nat) (row : label * float),
          w <= i ->
          nth_error (iloc_slice s (i - w) i) k = Some row ->
          i - w + k < i /\ nth_error s (i - w + k) = Some row).
Proof.
  intros label OLS_params coint series_mean series_std px py w.
  split; [|split; [|split]].
  - intros Hols.
    rewrite fit_rolling_params_returns by exact Hols.
    unfold fit_result. do 5 eexists. split; [reflexivity|]. split.
    + repeat constructor; apply fit_column_shape.
    + intros i Hi.
      exists (estimate_at OLS_params coint series_mean series_std px py w i).
      split; [apply estimate_returns, Hols, Hi|].
      repeat split; now apply fit_column_nth.
  - intros i e Hi Hok He.
    now apply fit_rolling_params_first_failure with (i := i).
  - intros s i Hw Hi. unfold iloc_slice. split.
    + rewrite length_firstn, length_skipn. lia.
    + intros k Hk. rewrite nth_error_firstn, nth_error_skipn.
      destruct (Nat.ltb_spec k (i - (i - w))); [reflexivity|lia].
  - intros s i k row Hw. now apply iloc_slice_rows.
Qed.

(** Window 1 on two prices with the unit regressor: one estimate, labelled
    by the second timestamp. *)
Lemma fit_rolling_params_trailing_windows_witness :
  exists sa sb sm ss sp : Series nat float,
    fit_rolling_params Sample.ols_unit Sample.coint_failing
      Sample.mean_seq Sample.std_one Sample.prices Sample.hedges 1
    = Returned (sa, sb, sm, ss, sp)
    /\ index sa = [1] /\ values sa = [F64.zero] /\ values sb = [F64.one].
Proof.
  destruct (proj1 (fit_rolling_params_trailing_windows Sample.ols_unit
                     Sample.coint_failing Sample.mean_seq Sample.std_one
                     Sample.prices Sample.hedges 1))
    as (sa & sb & sm & ss & sp & Hret & _).
  - intros i _ [e He]. discriminate He.
  - exists sa, sb, sm, ss, sp. split; [exact Hret|].
    vm_compute in Hret. injection Hret as <- <- <- <- <-.
    repeat split.
Defined.
